(** * rigpad: the asynchronous rig-control bridge of [main.py]

    A shallow embedding of [AsyncRigControlServer]: the response handling of
    [get_rig_data], the two polling coroutines [sync_frequencies] and
    [handle_controller_input], and the life cycle [start] / [stop] together
    with the [__main__] block.

    Python values are modelled as follows.
    - [int] is [Z] (unbounded), [bytes] is [list byte], [str] is the list of
      its Unicode code points ([N]).
    - An exception is a constructor of [exn]; a computation that may raise
      returns a [result].
    - A coroutine is a state machine: its state says at which [await] it is
      suspended, and one transition runs it from one [await] to the next.
      The event loop is single threaded, so the code between two [await]s
      runs without interruption; the two coroutines interleave at [await]s
      only. *)

From Stdlib Require Import ZArith NArith List Bool Lia.
From Stdlib Require Import Strings.String Strings.Ascii Strings.Byte.
From Stdlib Require Import Numbers.DecimalString.
From Stdlib Require Numbers.DecimalPos.
Import ListNotations.

(** ** Exceptions and results *)

Inductive exn : Type :=
| UnicodeDecodeError
| UnicodeEncodeError
| ValueError
| IndexError
| AttributeError
| OSError              (* ConnectionRefusedError, ConnectionResetError, ... *)
| RuntimeError         (* 'Event loop is closed' *)
| KeyboardInterrupt.

Inductive result (A : Type) : Type :=
| Return (a : A)
| Raise (e : exn).

Arguments Return {A} a.
Arguments Raise {A} e.

Definition bind {A B : Type} (r : result A) (k : A -> result B) : result B :=
  match r with
  | Return a => k a
  | Raise e => Raise e
  end.

Notation "x <- r ;; k" := (bind r (fun x => k))
  (at level 61, r at next level, right associativity).

(** ** Python sequences *)

(** [l[i]]: a negative index counts from the end, an index out of range
    raises [IndexError]. *)
Definition getitem {A : Type} (l : list A) (i : Z) : result A :=
  let n := Z.of_nat (List.length l) in
  let j := if (i <? 0)%Z then (i + n)%Z else i in
  if ((j <? 0) || (n <=? j))%Z then Raise IndexError
  else match nth_error l (Z.to_nat j) with
       | Some a => Return a
       | None => Raise IndexError
       end.

(** ** Python text *)

Module Py.

Local Open Scope N_scope.

Definition char : Type := N.
Definition str : Type := list char.
Definition bytes : Type := list byte.

Definition LF : char := 10.

(** The code points of an ASCII literal. *)
Definition literal (s : string) : str := map Byte.to_N (list_byte_of_string s).

(** [str.isspace] on one code point: the table behind [str.strip()]. *)
Definition isspace (c : char) : bool :=
  ((0x09 <=? c) && (c <=? 0x0D)) || ((0x1C <=? c) && (c <=? 0x20))
  || (c =? 0x85) || (c =? 0xA0) || (c =? 0x1680)
  || ((0x2000 <=? c) && (c <=? 0x200A))
  || (c =? 0x2028) || (c =? 0x2029) || (c =? 0x202F) || (c =? 0x205F)
  || (c =? 0x3000).

Fixpoint lstrip (s : str) : str :=
  match s with
  | [] => []
  | c :: t => if isspace c then lstrip t else s
  end.

Fixpoint rstrip (s : str) : str :=
  match s with
  | [] => []
  | c :: t =>
      match rstrip t with
      | [] => if isspace c then [] else [c]
      | r => c :: r
      end
  end.

(** [s.strip()] *)
Definition strip (s : str) : str := rstrip (lstrip s).

(** [s.split(sep)] for a separator of one character; the result is never
    empty. *)
Fixpoint split (sep : char) (s : str) : list str :=
  match s with
  | [] => [[]]
  | c :: t =>
      if c =? sep then [] :: split sep t
      else match split sep t with
           | l :: ls => (c :: l) :: ls
           | [] => [[c]]
           end
  end.

(** *** UTF-8 *)

Definition between (lo hi b : N) : bool := (lo <=? b) && (b <=? hi).

Definition continuation (b : N) : bool := between 0x80 0xBF b.

(** The strict decoder: no overlong forms, no surrogates, nothing above
    U+10FFFF, no truncated sequence. [None] stands for the error. *)
Fixpoint utf8_decode_N (bs : list N) : option str :=
  match bs with
  | [] => Some []
  | b0 :: t0 =>
      if b0 <? 0x80 then option_map (cons b0) (utf8_decode_N t0)
      else if between 0xC2 0xDF b0 then
        match t0 with
        | b1 :: t1 =>
            if continuation b1
            then option_map (cons ((b0 - 0xC0) * 64 + (b1 - 0x80)))
                            (utf8_decode_N t1)
            else None
        | _ => None
        end
      else if between 0xE0 0xEF b0 then
        match t0 with
        | b1 :: b2 :: t2 =>
            let lo := if b0 =? 0xE0 then 0xA0 else 0x80 in
            let hi := if b0 =? 0xED then 0x9F else 0xBF in
            if between lo hi b1 && continuation b2
            then option_map
                   (cons ((b0 - 0xE0) * 4096 + (b1 - 0x80) * 64 + (b2 - 0x80)))
                   (utf8_decode_N t2)
            else None
        | _ => None
        end
      else if between 0xF0 0xF4 b0 then
        match t0 with
        | b1 :: b2 :: b3 :: t3 =>
            let lo := if b0 =? 0xF0 then 0x90 else 0x80 in
            let hi := if b0 =? 0xF4 then 0x8F else 0xBF in
            if between lo hi b1 && continuation b2 && continuation b3
            then option_map
                   (cons ((b0 - 0xF0) * 262144 + (b1 - 0x80) * 4096
                          + (b2 - 0x80) * 64 + (b3 - 0x80)))
                   (utf8_decode_N t3)
            else None
        | _ => None
        end
      else None
  end.

(** [b.decode('utf-8')] *)
Definition decode (b : bytes) : result str :=
  match utf8_decode_N (map Byte.to_N b) with
  | Some s => Return s
  | None => Raise UnicodeDecodeError
  end.

Definition byte_of (n : N) : byte :=
  match Byte.of_N n with
  | Some b => b
  | None => x00
  end.

Definition encode_char (c : char) : option bytes :=
  if c <? 0x80 then Some [byte_of c]
  else if c <? 0x800 then
    Some [byte_of (0xC0 + c / 64); byte_of (0x80 + c mod 64)]
  else if c <? 0x10000 then
    if between 0xD800 0xDFFF c then None
    else Some [byte_of (0xE0 + c / 4096); byte_of (0x80 + (c / 64) mod 64);
               byte_of (0x80 + c mod 64)]
  else if c <? 0x110000 then
    Some [byte_of (0xF0 + c / 262144); byte_of (0x80 + (c / 4096) mod 64);
          byte_of (0x80 + (c / 64) mod 64); byte_of (0x80 + c mod 64)]
  else None.

(** [s.encode('utf-8')] *)
Fixpoint encode (s : str) : result bytes :=
  match s with
  | [] => Return []
  | c :: t =>
      match encode_char c with
      | None => Raise UnicodeEncodeError
      | Some bs => rest <- encode t ;; Return (bs ++ rest)
      end
  end.

(** [str(n)] for an [int]: the decimal digits, with a minus sign for a
    negative number. *)
Definition str_of_int (n : Z) : str :=
  literal (NilEmpty.string_of_int (Z.to_int n)).

(** *** [int(s)] *)

Section IntOfStr.

(** The decimal-digit column of the interpreter's Unicode database
    ([Py_UNICODE_TODECIMAL]): the digit value of a code point of category
    Nd. The table belongs to the interpreter, so it is a parameter here; the
    code points below 127 never reach it. *)
Variable todecimal : char -> option N.

(** [int] first rewrites the text to ASCII: a code point below 127 is kept,
    other white space becomes a blank, other decimal digits become ASCII
    digits, and at anything else the text is cut after a question mark. *)
Fixpoint transform_decimal_and_space (s : str) : str :=
  match s with
  | [] => []
  | c :: t =>
      if c <? 127 then c :: transform_decimal_and_space t
      else if isspace c then 0x20 :: transform_decimal_and_space t
      else match todecimal c with
           | Some d => (0x30 + d) :: transform_decimal_and_space t
           | None => [0x3F]
           end
  end.

(** White space of the C locale. *)
Definition c_isspace (c : char) : bool := (c =? 0x20) || between 0x09 0x0D c.

Fixpoint skip_spaces (s : str) : str :=
  match s with
  | [] => []
  | c :: t => if c_isspace c then skip_spaces t else s
  end.

Definition digit_value (c : char) : option Z :=
  if between 0x30 0x39 c then Some (Z.of_N (c - 0x30)) else None.

(** The digits of the literal, where single underscores may separate
    digits: the value read, the number of digits, and what follows. [None]
    when an underscore is doubled or ends the digits. *)
Fixpoint scan_digits (s : str) (prev_underscore : bool) (acc : Z) (digits : nat)
  : option (Z * nat * str) :=
  match s with
  | [] => if prev_underscore then None else Some (acc, digits, [])
  | c :: t =>
      if c =? 0x5F then
        if prev_underscore then None else scan_digits t true acc digits
      else
        match digit_value c with
        | Some d => scan_digits t false (10 * acc + d)%Z (S digits)
        | None => if prev_underscore then None else Some (acc, digits, s)
        end
  end.

(** [int(s)] in base 10: surrounding white space, an optional sign, digits;
    [ValueError] otherwise. The interpreter's cap on the number of digits
    (4300 unless reconfigured) is left out: [reader.read(1024)] returns at
    most 1024 bytes, so no text that reaches [int] here comes near it. *)
Definition int_of_str (s : str) : result Z :=
  let a := skip_spaces (transform_decimal_and_space s) in
  let negative := match a with c :: _ => c =? 0x2D | [] => false end in
  let a :=
    match a with
    | c :: t => if (c =? 0x2B) || (c =? 0x2D) then t else a
    | [] => a
    end in
  if match a with c :: _ => c =? 0x5F | [] => false end then Raise ValueError
  else
    match scan_digits a false 0%Z 0%nat with
    | None => Raise ValueError
    | Some (v, digits, rest) =>
        if (digits =? 0)%nat then Raise ValueError
        else
          match skip_spaces rest with
          | [] => Return (if negative then (- v)%Z else v)
          | _ :: _ => Raise ValueError
          end
    end.

End IntOfStr.

(** The part of the decimal-digit table that every version of the Unicode
    database shares on the code points used in the examples: no digit
    outside ASCII is exercised there. *)
Definition ascii_todecimal (c : char) : option N :=
  if between 0x30 0x39 c then Some (c - 0x30) else None.

End Py.

(** ** The server object *)

(** What the program has done to the stream pair [primary_reader] /
    [primary_writer]: the bytes handed to [write], in order, and how many
    times [close()] followed by [wait_closed()] ran. *)
Record connection : Type := mk_connection {
  written : Py.bytes;
  closes : nat
}.

(** The attributes of [AsyncRigControlServer] that the coroutines use.
    [primary] is absent until [open_connection] has set the two stream
    attributes; [joystick] tells whether a joystick was found by
    [__init__]. *)
Record server : Type := mk_server {
  running : bool;
  last_frequency : option Z;
  frequency_step : Z;
  joystick : bool;
  primary : option connection
}.

Definition set_running (b : bool) (s : server) : server :=
  mk_server b (last_frequency s) (frequency_step s) (joystick s) (primary s).

Definition set_last_frequency (f : option Z) (s : server) : server :=
  mk_server (running s) f (frequency_step s) (joystick s) (primary s).

Definition set_primary (c : option connection) (s : server) : server :=
  mk_server (running s) (last_frequency s) (frequency_step s) (joystick s) c.

(** [__init__] *)
Definition init (joystick_found : bool) : server :=
  mk_server false None 1000 joystick_found None.

(** [self.primary_writer.write(data)]: the attribute is missing before
    [open_connection]. *)
Definition writer_write (data : Py.bytes) (s : server) : result server :=
  match primary s with
  | None => Raise AttributeError
  | Some c => Return (set_primary (Some (mk_connection (written c ++ data) (closes c))) s)
  end.

(** [open_connection]: [outcome] is what [asyncio.open_connection] does. *)
Definition open_connection (outcome : result unit) (s : server) : result server :=
  _ <- outcome ;; Return (set_primary (Some (mk_connection [] 0)) s).

(** [close_connection]. The streams belong to the event loop that opened
    them. [in_owning_loop] tells whether the coroutine runs in that loop; in
    another loop, the owning one being closed, [writer.close()] raises
    [RuntimeError] ('Event loop is closed') and nothing is closed. The
    missing attribute comes first: [self.primary_writer] is looked up before
    [close] is called. *)
Definition close_connection (in_owning_loop : bool) (s : server) : result server :=
  match primary s with
  | None => Raise AttributeError
  | Some c =>
      if in_owning_loop
      then Return (set_primary (Some (mk_connection (written c) (S (closes c)))) s)
      else Raise RuntimeError
  end.

(** ** The two coroutines as state machines *)

(** Where [sync_frequencies] is suspended: not yet run, in
    [asyncio.sleep], in [writer.drain] or in [reader.read] (the last two
    inside [get_rig_data]). *)
Inductive sync_pc : Type := SyncStart | SyncSleep | SyncDrain | SyncRead.

(** Where [handle_controller_input] is suspended: not yet run, in
    [asyncio.sleep] or in the [writer.drain] of [set_frequency]. *)
Inductive input_pc : Type := InputStart | InputSleep | InputDrain.

Inductive status (P : Type) : Type :=
| Suspended (pc : P)
| Finished
| Failed (e : exn).

Arguments Suspended {P} pc.
Arguments Finished {P}.
Arguments Failed {P} e.

(** The server object, the two tasks, the local [step_index] of
    [handle_controller_input], and two counters of the loop bodies entered
    (ghost state: the program has no such counters). *)
Record world : Type := mk_world {
  srv : server;
  sync : status sync_pc;
  input : status input_pc;
  step_index : Z;
  sync_iterations : nat;
  input_iterations : nat
}.

Definition set_srv (s : server) (w : world) : world :=
  mk_world s (sync w) (input w) (step_index w) (sync_iterations w) (input_iterations w).

Definition set_sync (t : status sync_pc) (w : world) : world :=
  mk_world (srv w) t (input w) (step_index w) (sync_iterations w) (input_iterations w).

Definition set_input (t : status input_pc) (w : world) : world :=
  mk_world (srv w) (sync w) t (step_index w) (sync_iterations w) (input_iterations w).

Definition set_step_index (i : Z) (w : world) : world :=
  mk_world (srv w) (sync w) (input w) i (sync_iterations w) (input_iterations w).

Definition count_sync (w : world) : world :=
  mk_world (srv w) (sync w) (input w) (step_index w) (S (sync_iterations w)) (input_iterations w).

Definition count_input (w : world) : world :=
  mk_world (srv w) (sync w) (input w) (step_index w) (sync_iterations w) (S (input_iterations w)).

(** What the event loop can do next: resume one of the tasks at the [await]
    it is suspended in, with the outcome of the awaited operation, or
    deliver the interrupt signal. *)
Inductive event : Type :=
| WakeSync
| SyncDrained (r : result unit)
| SyncReceived (r : result Py.bytes)
| WakeInput (hat : Z * Z)
| InputDrained (r : result unit)
| Sigint.

Section Engine.

Variable todecimal : Py.char -> option N.

Local Open Scope Z_scope.

(** ** [get_rig_data] *)

(** Lines 41 to 53 of [get_rig_data]: what is done with the bytes that
    [reader.read(1024)] returned. [Return None] is the [return None] of the
    [except ValueError] branch; the decoding of line 41 stands before the
    [try]. The two [print]s are console output and are left out here;
    [get_rig_data_response_printing] below has them. *)
Definition get_rig_data_response (response : Py.bytes) : result (option Z) :=
  text <- Py.decode response ;;
  let response := Py.strip text in
  line <- getitem (Py.split Py.LF response) (-1) ;;
  let frequency_str := Py.strip line in
  match Py.int_of_str todecimal frequency_str with
  | Return frequency => Return (Some frequency)
  | Raise ValueError => Return None
  | Raise e => Raise e
  end.

(** ** The wire commands *)

(** ['f\n'], the command of [read_frequency]. *)
Definition read_frequency_command : Py.str := Py.literal "f" ++ [Py.LF].

(** [f'F {frequency}\n'], the command of [set_frequency]. *)
Definition set_frequency_command (frequency : Z) : Py.str :=
  Py.literal "F " ++ Py.str_of_int frequency ++ [Py.LF].

(** [writer.write(command.encode('utf-8'))] *)
Definition send (command : Py.str) (s : server) : result server :=
  data <- Py.encode command ;; writer_write data s.

(** ** The coroutines between two [await]s *)

(** *** [sync_frequencies] *)

(** The loop head, reached when the task first runs and after each sleep:
    [while self.running], then [read_frequency] up to the [await] of
    [writer.drain()]. *)
Definition sync_frequencies_wake (w : world) : world :=
  if running (srv w) then
    let w := count_sync w in
    match send read_frequency_command (srv w) with
    | Return s => set_sync (Suspended SyncDrain) (set_srv s w)
    | Raise e => set_sync (Failed e) w
    end
  else set_sync Finished w.

(** Back from [writer.drain()]: on to [reader.read(1024)]. *)
Definition sync_frequencies_drained (r : result unit) (w : world) : world :=
  match r with
  | Return _ => set_sync (Suspended SyncRead) w
  | Raise e => set_sync (Failed e) w
  end.

(** The truth value of [freq] in [if freq and ...]. *)
Definition truthy (freq : option Z) : bool :=
  match freq with
  | None => false
  | Some n => negb (n =? 0)
  end.

Definition option_Z_eqb (a b : option Z) : bool :=
  match a, b with
  | Some x, Some y => x =? y
  | None, None => true
  | _, _ => false
  end.

(** Back from [reader.read(1024)] with its outcome: the rest of
    [get_rig_data], then lines 111 to 114. *)
Definition sync_frequencies_received (r : result Py.bytes) (w : world) : world :=
  match (response <- r ;; get_rig_data_response response) with
  | Raise e => set_sync (Failed e) w
  | Return freq =>
      let s := srv w in
      let s :=
        if truthy freq && negb (option_Z_eqb freq (last_frequency s))
        then set_last_frequency freq s
        else s in
      set_sync (Suspended SyncSleep) (set_srv s w)
  end.

(** *** [handle_controller_input] *)

Definition frequency_steps : list Z := [1000; 12500; 1000000].

(** The bodies of the [dpad_left] branch ([op] is [Z.sub]) and of the
    [dpad_right] branch ([op] is [Z.add]), up to the [await] of
    [writer.drain()] in [set_frequency]. *)
Definition shift_frequency (op : Z -> Z -> Z) (w : world) : world :=
  let s := srv w in
  let s :=
    match last_frequency s with
    | None => set_last_frequency (Some 1000000) s
    | Some _ => s
    end in
  let base := match last_frequency s with Some f => f | None => 1000000 end in
  match getitem frequency_steps (step_index w) with
  | Raise e => set_input (Failed e) (set_srv s w)
  | Return step =>
      let s := set_last_frequency (Some (op base step)) s in
      match send (set_frequency_command (op base step)) s with
      | Raise e => set_input (Failed e) (set_srv s w)
      | Return s => set_input (Suspended InputDrain) (set_srv s w)
      end
  end.

(** The bodies of the [dpad_up] branch ([delta] is [1]) and of the
    [dpad_down] branch ([delta] is [-1]); the [getitem] is the one of the
    [print] that follows the assignment. *)
Definition change_step (delta : Z) (w : world) : world :=
  let i := (step_index w + delta) mod Z.of_nat (List.length frequency_steps) in
  let w := set_step_index i w in
  match getitem frequency_steps i with
  | Raise e => set_input (Failed e) w
  | Return _ => set_input (Suspended InputSleep) w
  end.

(** The [if] / [elif] chain of lines 81 to 103. *)
Definition dispatch (dpad_left dpad_right dpad_up dpad_down : bool) (w : world) : world :=
  if dpad_left then shift_frequency Z.sub w
  else if dpad_right then shift_frequency Z.add w
  else if dpad_up then change_step 1 w
  else if dpad_down then change_step (-1) w
  else set_input (Suspended InputSleep) w.

(** The loop head: [while self.running], the event pump, the four readings
    of [get_hat(0)] and the dispatch. [hat] is the state of the hat after
    the pump; nothing changes it between the four readings. The pump and
    the readings are taken to succeed: the joystick has a hat 0. *)
Definition handle_controller_input_wake (hat : Z * Z) (w : world) : world :=
  if running (srv w) then
    let w := count_input w in
    if joystick (srv w) then
      let dpad_left := fst hat =? -1 in
      let dpad_right := fst hat =? 1 in
      let dpad_up := snd hat =? 1 in
      let dpad_down := snd hat =? -1 in
      dispatch dpad_left dpad_right dpad_up dpad_down w
    else set_input (Suspended InputSleep) w
  else set_input Finished w.

(** Back from the [writer.drain()] of [set_frequency]. *)
Definition handle_controller_input_drained (r : result unit) (w : world) : world :=
  match r with
  | Return _ => set_input (Suspended InputSleep) w
  | Raise e => set_input (Failed e) w
  end.

(** ** The event loop *)

(** One resumption. An event for a task that is not suspended at the
    matching [await] does not occur; it is skipped. [Sigint] is handled by
    [gather]. *)
Definition on_event (ev : event) (w : world) : world :=
  match ev with
  | WakeSync =>
      match sync w with
      | Suspended SyncStart | Suspended SyncSleep => sync_frequencies_wake w
      | _ => w
      end
  | SyncDrained r =>
      match sync w with
      | Suspended SyncDrain => sync_frequencies_drained r w
      | _ => w
      end
  | SyncReceived r =>
      match sync w with
      | Suspended SyncRead => sync_frequencies_received r w
      | _ => w
      end
  | WakeInput hat =>
      match input w with
      | Suspended InputStart => handle_controller_input_wake hat (set_step_index 0 w)
      | Suspended InputSleep => handle_controller_input_wake hat w
      | _ => w
      end
  | InputDrained r =>
      match input w with
      | Suspended InputDrain => handle_controller_input_drained r w
      | _ => w
      end
  | Sigint => w
  end.

(** What [asyncio.gather] has to report: the exception of a task that
    failed, or the return of both. *)
Definition gather_outcome (w : world) : option (result unit) :=
  match sync w, input w with
  | Failed e, _ => Some (Raise e)
  | _, Failed e => Some (Raise e)
  | Finished, Finished => Some (Return tt)
  | _, _ => None
  end.

(** [await asyncio.gather(self.sync_frequencies(), self.handle_controller_input())]
    under the events [evs]. The answer is [None] when the events end while
    the tasks are still running. *)
Fixpoint gather (evs : list event) (w : world) : option (result unit) * world :=
  match gather_outcome w with
  | Some r => (Some r, w)
  | None =>
      match evs with
      | [] => (None, w)
      | Sigint :: _ => (Some (Raise KeyboardInterrupt), w)
      | ev :: evs => gather evs (on_event ev w)
      end
  end.

(** The tasks before their first run. *)
Definition boot (s : server) : world :=
  mk_world s (Suspended SyncStart) (Suspended InputStart) 0 0 0.

(** [start] *)
Definition start (opened : result unit) (evs : list event) (s : server)
  : option (result unit) * world :=
  match open_connection opened s with
  | Raise e => (Some (Raise e), boot s)
  | Return s => gather evs (boot (set_running true s))
  end.

(** [stop], awaited in the loop that owns the streams or in another one. *)
Definition stop (in_owning_loop : bool) (w : world) : result unit * world :=
  let w := set_srv (set_running false (srv w)) w in
  match close_connection in_owning_loop (srv w) with
  | Return s => (Return tt, set_srv s w)
  | Raise e => (Raise e, w)
  end.

(** The [__main__] block: [asyncio.run(server.start())], and
    [asyncio.run(server.stop())] in the [except KeyboardInterrupt] branch
    only. The second [asyncio.run] makes an event loop of its own, the first
    one being closed by then: [stop] does not run in the loop that owns the
    streams. *)
Definition main (joystick_found : bool) (opened : result unit) (evs : list event)
  : option (result unit) * world :=
  match start opened evs (init joystick_found) with
  | (Some (Raise KeyboardInterrupt), w) => let (r, w) := stop false w in (Some r, w)
  | (r, w) => (r, w)
  end.

(** How often the connection of a world was closed; [0] when there is
    none. *)
Definition times_closed (w : world) : nat :=
  match primary (srv w) with
  | Some c => closes c
  | None => 0%nat
  end.

(** The bytes written to the connection of a world. *)
Definition wire (w : world) : Py.bytes :=
  match primary (srv w) with
  | Some c => written c
  | None => []
  end.

End Engine.

(** ** Notions of the specification *)

(** The last line as the specification words it: strip the trailing white
    space of the whole text, split on the newline, take the last piece and
    strip it. *)
Definition spec_last_line (text : Py.str) : Py.str :=
  Py.strip (last (Py.split Py.LF (Py.rstrip text)) []).

(** The value of a run of ASCII digits. *)
Fixpoint digits_value (ds : Py.str) (acc : Z) : option Z :=
  match ds with
  | [] => Some acc
  | c :: t =>
      if Py.between 0x30 0x39 c
      then digits_value t (10 * acc + Z.of_N (c - 0x30))%Z
      else None
  end.

Definition nonempty {A : Type} (l : list A) : bool :=
  match l with
  | [] => false
  | _ :: _ => true
  end.

(** A decimal integer literal: an optional sign and at least one ASCII
    digit; its value. *)
Definition decimal_literal (s : Py.str) : option Z :=
  match s with
  | [] => None
  | c :: t =>
      if (c =? 0x2D)%N then
        if nonempty t then option_map Z.opp (digits_value t 0%Z) else None
      else if (c =? 0x2B)%N then
        if nonempty t then digits_value t 0%Z else None
      else digits_value s 0%Z
  end.

(** The dispatch policy of the specification: the first pressed direction
    in the order left, right, up, down. *)
Inductive direction : Type := Left | Right | Up | Down.

Definition first_pressed (dpad_left dpad_right dpad_up dpad_down : bool)
  : option direction :=
  option_map snd
    (find fst [(dpad_left, Left); (dpad_right, Right); (dpad_up, Up); (dpad_down, Down)]).

(** The merges of two event sequences that keep the order of each. *)
Inductive interleaving {A : Type} : list A -> list A -> list A -> Prop :=
| interleaving_nil : interleaving [] [] []
| interleaving_left a l1 l2 l :
    interleaving l1 l2 l -> interleaving (a :: l1) l2 (a :: l)
| interleaving_right a l1 l2 l :
    interleaving l1 l2 l -> interleaving l1 (a :: l2) (a :: l).

(** The bytes of an ASCII text. *)
Definition ascii_bytes (s : string) : Py.bytes := list_byte_of_string s.

Definition ascii_only (bs : Py.bytes) : Prop :=
  Forall (fun b => (Byte.to_N b < 128)%N) bs.

(** The line ["F {f}\n"] of the wire protocol, [{f}] being the decimal
    string of [f]. *)
Definition set_frequency_line (f : Z) : Py.bytes :=
  ascii_bytes "F " ++ ascii_bytes (NilEmpty.string_of_int (Z.to_int f)) ++ [x0a].

(** The base of a shift: the last frequency, or 1 MHz when there is none. *)
Definition shift_base (w : world) : Z :=
  match last_frequency (srv w) with
  | Some f => f
  | None => 1000000
  end.

(** The step index is an index of the step-size set. *)
Definition step_index_in_range (w : world) : Prop :=
  (0 <= step_index w < Z.of_nat (List.length frequency_steps))%Z.

(** The connection of the server is open and was never closed. *)
Definition open_unclosed (s : server) : Prop :=
  match primary s with
  | Some c => closes c = 0%nat
  | None => False
  end.

(** A world in which the engine runs with a joystick and an open
    connection, both coroutines being suspended. *)
Definition live (lf : option Z) (fs : Z) (wr : Py.bytes) (cl : nat)
    (s : sync_pc) (i : input_pc) (idx : Z) (n m : nat) : world :=
  mk_world (mk_server true lf fs true (Some (mk_connection wr cl)))
    (Suspended s) (Suspended i) idx n m.

(** The entry of the step-size set at the active index. *)
Definition active_step (w : world) : Z :=
  nth (Z.to_nat (step_index w)) frequency_steps 0%Z.

(** ** Further notions *)

(** The decimal string of an integer, as [str] gives it. *)
Definition decimal (f : Z) : string := NilEmpty.string_of_int (Z.to_int f).

(** All code points of a text are white space. *)
Definition blank (text : Py.str) : Prop := Forall (fun c => Py.isspace c = true) text.

(** ** [get_rig_data] with its console output *)

(** The text of the [print] of line 45, [response] being the stripped
    text. *)
Definition received_message (response : Py.str) : Py.str :=
  Py.literal "Received response: " ++ response.

(** The text of the [print] of line 52. *)
Definition error_message (frequency_str : Py.str) : Py.str :=
  Py.literal "Error: Unable to convert response to integer: " ++ frequency_str.

Section Printing.

Variable todecimal : Py.char -> option N.

(** What [print] does with a text: it returns, or it raises:
    [UnicodeEncodeError] when the encoding of [sys.stdout] has no bytes for
    a character of the text, or the error of a closed or broken output. *)
Variable console : Py.str -> result unit.

(** Lines 41 to 53 of [get_rig_data] with the two [print]s: the first
    stands before the [try], the second in the [except ValueError] branch. *)
Definition get_rig_data_response_printing (response : Py.bytes)
  : result (option Z) :=
  text <- Py.decode response ;;
  let response := Py.strip text in
  line <- getitem (Py.split Py.LF response) (-1) ;;
  let frequency_str := Py.strip line in
  _ <- console (received_message response) ;;
  match Py.int_of_str todecimal frequency_str with
  | Return frequency => Return (Some frequency)
  | Raise ValueError =>
      _ <- console (error_message frequency_str) ;;
      Return None
  | Raise e => Raise e
  end.

End Printing.

(** A console whose encoding is ASCII. *)
Definition ascii_console (text : Py.str) : result unit :=
  if forallb (fun c => (c <? 128)%N) text then Return tt
  else Raise UnicodeEncodeError.

(** The bytes of ['f\n']. *)
Definition read_frequency_line : Py.bytes := ascii_bytes "f" ++ [x0a].

(** A sequence of lines of the wire protocol: requests ['f\n'] and commands
    ["F {f}\n"]. *)
Inductive protocol_stream : Py.bytes -> Prop :=
| protocol_empty : protocol_stream []
| protocol_read s :
    protocol_stream s -> protocol_stream (s ++ read_frequency_line)
| protocol_set s f :
    protocol_stream s -> protocol_stream (s ++ set_frequency_line f).

(** The event hands the exception [e] to a coroutine: a drain or a read that
    fails. *)
Definition raised_by (ev : event) (e : exn) : Prop :=
  ev = SyncDrained (Raise e) \/ ev = SyncReceived (Raise e)
  \/ ev = InputDrained (Raise e).

(** No coroutine has failed or returned. *)
Definition both_suspended (w : world) : Prop :=
  (exists pc, sync w = Suspended pc) /\ (exists pc, input w = Suspended pc).

(** The state of the engine between [start] and [stop]: [running] is set,
    the connection is open and unclosed and holds protocol lines only, and
    the step index is in range. *)
Definition engine_running (w : world) : Prop :=
  running (srv w) = true
  /\ open_unclosed (srv w)
  /\ protocol_stream (wire w)
  /\ step_index_in_range w.

(** The server has a last frequency. *)
Definition known (s : server) : Prop := exists f, last_frequency s = Some f.

(** A running engine without a joystick that has sent nothing but its
    read requests, one for each cycle of the sync loop, and whose step index
    is the initial one. *)
Definition polling_only (w : world) : Prop :=
  joystick (srv w) = false
  /\ running (srv w) = true
  /\ step_index w = 0%Z
  /\ (exists c, primary (srv w) = Some c)
  /\ wire w = List.concat (repeat read_frequency_line (sync_iterations w)).

(** ** The coroutines run without interruption *)

Section Sequential.

Variable todecimal : Py.char -> option N.

(** [get_rig_data] from its call to its return, [drained] and [received]
    being the outcomes of its two [await]s; the server is returned as the
    call leaves it, also when it raises. *)
Definition get_rig_data (command : Py.str) (drained : result unit)
    (received : result Py.bytes) (s : server) : result (option Z) * server :=
  match send command s with
  | Raise e => (Raise e, s)
  | Return s =>
      match drained with
      | Raise e => (Raise e, s)
      | Return _ =>
          match received with
          | Raise e => (Raise e, s)
          | Return response => (get_rig_data_response todecimal response, s)
          end
      end
  end.

(** [read_frequency] *)
Definition read_frequency (drained : result unit) (received : result Py.bytes)
    (s : server) : result (option Z) * server :=
  get_rig_data read_frequency_command drained received s.

(** [set_frequency], [drained] being the outcome of its [await]. *)
Definition set_frequency (frequency : Z) (drained : result unit) (s : server)
  : result unit * server :=
  match send (set_frequency_command frequency) s with
  | Raise e => (Raise e, s)
  | Return s =>
      match drained with
      | Raise e => (Raise e, s)
      | Return _ => (Return tt, s)
      end
  end.

End Sequential.

(** [n] left presses in a row, each with the drain of its command. *)
Definition left_presses (n : nat) : list event :=
  List.concat (repeat [WakeInput (-1, 0)%Z; InputDrained (Return tt)] n).

(** * Facts *)

(** ** Sequences *)

Lemma getitem_last {A : Type} (l : list A) (d : A) :
  l <> [] -> getitem l (-1) = Return (last l d).
Proof.
  intros Hne. unfold getitem.
  destruct (exists_last Hne) as (l' & a & ->).
  rewrite last_last, length_app. cbn [List.length].
  replace ((-1 <? 0)%Z) with true by reflexivity.
  destruct (Z.ltb_spec (-1 + Z.of_nat (List.length l' + 1)) 0); [lia|].
  destruct (Z.leb_spec (Z.of_nat (List.length l' + 1)) (-1 + Z.of_nat (List.length l' + 1))); [lia|].
  cbn [orb].
  replace (Z.to_nat (-1 + Z.of_nat (List.length l' + 1))) with (List.length l' + 0)%nat by lia.
  rewrite nth_error_app2 by lia.
  replace (List.length l' + 0 - List.length l')%nat with 0%nat by lia.
  reflexivity.
Qed.

(** ** Text *)

Module PyFacts.

Import Py.
Local Open Scope N_scope.

Lemma split_nonempty sep s : split sep s <> [].
Proof.
  destruct s as [|c t]; cbn; [discriminate|].
  destruct (c =? sep); [discriminate|].
  destruct (split sep t); discriminate.
Qed.

Lemma rstrip_keep c t : isspace c = false -> rstrip (c :: t) = c :: rstrip t.
Proof.
  intros H. cbn. rewrite H. destruct (rstrip t); reflexivity.
Qed.

Lemma lstrip_head_space c t : isspace c = true -> lstrip (c :: t) = lstrip t.
Proof. intros H. cbn. now rewrite H. Qed.

(** Stripping from the left and from the right commute. *)
Lemma rstrip_lstrip s : rstrip (lstrip s) = lstrip (rstrip s).
Proof.
  induction s as [|c t IH]; [reflexivity|].
  destruct (isspace c) eqn:Hc.
  - rewrite lstrip_head_space by assumption. rewrite IH. cbn.
    destruct (rstrip t) as [|r rs] eqn:Hr.
    + rewrite Hc. reflexivity.
    + cbn. rewrite Hc. reflexivity.
  - cbn [lstrip]. rewrite Hc. rewrite rstrip_keep by assumption.
    cbn [lstrip]. rewrite Hc. reflexivity.
Qed.

Lemma strip_head_space c t : isspace c = true -> strip (c :: t) = strip t.
Proof. intros H. unfold strip. now rewrite lstrip_head_space. Qed.

Lemma LF_isspace : isspace LF = true.
Proof. reflexivity. Qed.

(** The last piece of a split does not see leading white space, once it is
    stripped. *)
Lemma strip_last_split_space c t :
  isspace c = true ->
  strip (last (split LF (c :: t)) []) = strip (last (split LF t) []).
Proof.
  intros Hc. cbn [split].
  destruct (c =? LF) eqn:Hlf.
  - destruct (split LF t) eqn:Hs; [now destruct (split_nonempty LF t)|].
    reflexivity.
  - destruct (split LF t) as [|l ls] eqn:Hs; [now destruct (split_nonempty LF t)|].
    destruct ls as [|l' ls'].
    + cbn. now apply strip_head_space.
    + reflexivity.
Qed.

Lemma strip_last_split_lstrip u :
  strip (last (split LF (lstrip u)) []) = strip (last (split LF u) []).
Proof.
  induction u as [|c t IH]; [reflexivity|].
  destruct (isspace c) eqn:Hc.
  - rewrite lstrip_head_space by assumption.
    rewrite strip_last_split_space by assumption. exact IH.
  - cbn [lstrip]. rewrite Hc. reflexivity.
Qed.

(** The last line of the source and the last line of the specification
    are the same text. *)
Lemma last_line_agrees text :
  strip (last (split LF (strip text)) []) = spec_last_line text.
Proof.
  unfold spec_last_line, strip at 2.
  rewrite rstrip_lstrip. apply strip_last_split_lstrip.
Qed.

End PyFacts.

Module IntFacts.

Import Py.
Local Open Scope N_scope.

Section WithTable.

Variable todecimal : char -> option N.

Lemma digit_is_ascii c : between 0x30 0x39 c = true -> (c <? 127) = true.
Proof.
  unfold between. intros H. apply andb_prop in H as [_ H].
  apply N.leb_le in H. apply N.ltb_lt. lia.
Qed.

Lemma digit_not_space c : between 0x30 0x39 c = true -> c_isspace c = false.
Proof.
  unfold c_isspace, between. intros H. apply andb_prop in H as [H1 H2].
  apply N.leb_le in H1. apply N.leb_le in H2.
  destruct (N.eqb_spec c 0x20); [lia|].
  destruct (N.leb_spec 0x09 c), (N.leb_spec c 0x0D); cbn; try reflexivity; lia.
Qed.

Lemma digit_not_mark c k :
  between 0x30 0x39 c = true -> (k < 0x30) \/ (0x39 < k) -> (c =? k) = false.
Proof.
  unfold between. intros H Hk. apply andb_prop in H as [H1 H2].
  apply N.leb_le in H1. apply N.leb_le in H2.
  apply N.eqb_neq. lia.
Qed.

Lemma transform_cons_ascii c t :
  (c <? 127) = true ->
  transform_decimal_and_space todecimal (c :: t)
  = c :: transform_decimal_and_space todecimal t.
Proof. intros H. cbn [transform_decimal_and_space]. now rewrite H. Qed.

Lemma digits_value_transform ds acc v :
  digits_value ds acc = Some v ->
  transform_decimal_and_space todecimal ds = ds.
Proof.
  revert acc. induction ds as [|c t IH]; intros acc H; [reflexivity|].
  cbn [digits_value] in H. destruct (between 48 57 c) eqn:Hc; [|discriminate].
  cbn. change 48 with 0x30 in Hc. change 57 with 0x39 in Hc.
  rewrite (digit_is_ascii c Hc). f_equal. eapply IH; eassumption.
Qed.

Lemma digits_value_scan ds acc v n :
  digits_value ds acc = Some v ->
  scan_digits ds false acc n = Some (v, (n + List.length ds)%nat, []).
Proof.
  revert acc n. induction ds as [|c t IH]; intros acc n H.
  - cbn in *. injection H as <-. now rewrite Nat.add_0_r.
  - cbn [digits_value] in H. destruct (between 48 57 c) eqn:Hc; [|discriminate].
    cbn [scan_digits]. rewrite (digit_not_mark c 0x5F Hc) by (right; reflexivity).
    unfold digit_value. rewrite Hc.
    rewrite (IH _ (S n) H). cbn [List.length].
    now rewrite Nat.add_succ_r.
Qed.

(** [int] reads a run of digits as its decimal value. *)
Lemma int_of_digits ds v :
  ds <> [] -> digits_value ds 0%Z = Some v ->
  let a := ds in
  (if match a with c :: _ => c =? 0x5F | [] => false end then Raise ValueError
   else
     match scan_digits a false 0%Z 0%nat with
     | None => Raise ValueError
     | Some (v, digits, rest) =>
         if (digits =? 0)%nat then Raise ValueError
         else
           match skip_spaces rest with
           | [] => Return v
           | _ :: _ => Raise ValueError
           end
     end) = Return v.
Proof.
  intros Hne H a. subst a.
  destruct ds as [|c t]; [congruence|].
  assert (Hc : between 0x30 0x39 c = true).
  { cbn [digits_value] in H. destruct (between 48 57 c) eqn:E; [reflexivity|discriminate]. }
  rewrite (digit_not_mark c 0x5F Hc) by (right; reflexivity).
  rewrite (digits_value_scan _ _ _ 0%nat H). reflexivity.
Qed.

Lemma int_of_decimal_literal s n :
  decimal_literal s = Some n -> int_of_str todecimal s = Return n.
Proof.
  destruct s as [|c t]; [discriminate|].
  unfold decimal_literal.
  destruct (N.eqb_spec c 0x2D) as [->|Hminus].
  - destruct t as [|d t']; [discriminate|]. cbn [nonempty].
    destruct (digits_value (d :: t') 0%Z) as [v|] eqn:Hv; [|discriminate].
    cbn [option_map]. intros [= <-].
    unfold int_of_str.
    rewrite transform_cons_ascii by reflexivity.
    rewrite (digits_value_transform _ _ _ Hv).
    cbn [skip_spaces]. change (c_isspace 0x2D) with false. cbv iota.
    change (0x2D =? 0x2D) with true. change (0x2D =? 0x2B) with false.
    cbn [orb]. cbv iota.
    pose proof (int_of_digits (d :: t') v ltac:(discriminate) Hv) as Hd.
    cbv zeta in Hd.
    destruct (match d :: t' with c :: _ => c =? 0x5F | [] => false end); [discriminate|].
    destruct (scan_digits (d :: t') false 0%Z 0%nat) as [[[v' k] rest]|]; [|discriminate].
    destruct (k =? 0)%nat; [discriminate|].
    destruct (skip_spaces rest); [|discriminate].
    now injection Hd as ->.
  - destruct (N.eqb_spec c 0x2B) as [->|Hplus].
    + destruct t as [|d t']; [discriminate|]. cbn [nonempty].
      intros Hv. unfold int_of_str.
      rewrite transform_cons_ascii by reflexivity.
      rewrite (digits_value_transform _ _ _ Hv).
      cbn [skip_spaces]. change (c_isspace 0x2B) with false. cbv iota.
      change (0x2B =? 0x2D) with false. change (0x2B =? 0x2B) with true.
      cbn [orb]. cbv iota.
      exact (int_of_digits (d :: t') n ltac:(discriminate) Hv).
    + intros Hv. unfold int_of_str.
      rewrite (digits_value_transform _ _ _ Hv).
      assert (Hc : between 0x30 0x39 c = true).
      { cbn [digits_value] in Hv. destruct (between 48 57 c) eqn:E; [reflexivity|discriminate]. }
      cbn [skip_spaces]. rewrite (digit_not_space c Hc).
      apply N.eqb_neq in Hminus, Hplus. rewrite Hminus, Hplus. cbn [orb].
      exact (int_of_digits (c :: t) n ltac:(discriminate) Hv).
Qed.

End WithTable.

End IntFacts.

(** ** [get_rig_data] *)

Section ResponseFacts.

Variable todecimal : Py.char -> option N.

Local Open Scope Z_scope.

(** [int] raises nothing but [ValueError]. *)
Lemma int_of_str_raises_value_error s e :
  Py.int_of_str todecimal s = Raise e -> e = ValueError.
Proof.
  unfold Py.int_of_str.
  repeat match goal with
         | |- context [if ?b then _ else _] => destruct b
         | |- context [match ?x with _ => _ end] => destruct x
         end; congruence.
Qed.

(** The response handling in terms of the specification's last line. *)
Lemma get_rig_data_response_text response text :
  Py.decode response = Return text ->
  get_rig_data_response todecimal response =
  match Py.int_of_str todecimal (spec_last_line text) with
  | Return frequency => Return (Some frequency)
  | Raise _ => Return None
  end.
Proof.
  intros Hd. unfold get_rig_data_response. rewrite Hd. cbn [bind].
  rewrite (getitem_last _ ([] : Py.str)) by apply PyFacts.split_nonempty.
  cbn [bind]. rewrite PyFacts.last_line_agrees.
  destruct (Py.int_of_str todecimal (spec_last_line text)) as [n|e] eqn:Hi;
    [reflexivity|].
  now rewrite (int_of_str_raises_value_error _ _ Hi).
Qed.


(** On text, [get_rig_data] does not raise: it returns the integer or
    [None]. *)
Lemma get_rig_data_response_total_on_text response text :
  Py.decode response = Return text ->
  exists freq, get_rig_data_response todecimal response = Return freq.
Proof.
  intros Hd. rewrite (get_rig_data_response_text _ _ Hd).
  destruct (Py.int_of_str todecimal (spec_last_line text)); eauto.
Qed.

(** On text whose last line [int] does not accept, [get_rig_data] returns
    [None]. *)
Lemma get_rig_data_response_none_on_text response text e :
  Py.decode response = Return text ->
  Py.int_of_str todecimal (spec_last_line text) = Raise e ->
  get_rig_data_response todecimal response = Return None.
Proof.
  intros Hd Hi. rewrite (get_rig_data_response_text _ _ Hd). now rewrite Hi.
Qed.

(** C2. The bytes [b'\xff'] are a response whose last line is no decimal
    integer, and [get_rig_data] does not return [None] for it: the decoding
    of line 41 raises [UnicodeDecodeError] outside the [try], the exception
    ends [sync_frequencies], and [start] raises it. *)
Theorem get_rig_data_raises_on_invalid_utf8 :
  get_rig_data_response todecimal [xff] = Raise UnicodeDecodeError
  /\ forall j,
      fst (main todecimal j (Return tt)
             [WakeSync; SyncDrained (Return tt); SyncReceived (Return [xff])])
      = Some (Raise UnicodeDecodeError).
Proof.
  split; [reflexivity|]. intros j. reflexivity.
Qed.

End ResponseFacts.


(** ** The wire commands *)

Lemma encode_ascii bs :
  ascii_only bs -> Py.encode (map Byte.to_N bs) = Return bs.
Proof.
  induction 1 as [|b bs Hb _ IH]; [reflexivity|].
  cbn [map Py.encode]. unfold Py.encode_char.
  apply N.ltb_lt in Hb. change 0x80%N with 128%N. rewrite Hb.
  rewrite IH. cbn [bind app]. unfold Py.byte_of.
  now rewrite Byte.of_to_N.
Qed.

Lemma string_of_uint_ascii u :
  ascii_only (ascii_bytes (NilEmpty.string_of_uint u)).
Proof.
  induction u; cbn; constructor; try assumption; reflexivity.
Qed.

Lemma string_of_int_ascii i :
  ascii_only (ascii_bytes (NilEmpty.string_of_int i)).
Proof.
  destruct i as [u|u]; cbn.
  - apply string_of_uint_ascii.
  - constructor; [reflexivity|apply string_of_uint_ascii].
Qed.

(** The command of [set_frequency] always encodes, to the protocol line. *)
Lemma set_frequency_command_encodes f :
  Py.encode (set_frequency_command f) = Return (set_frequency_line f).
Proof.
  unfold set_frequency_command, set_frequency_line, Py.str_of_int, Py.literal.
  change [Py.LF] with (map Byte.to_N [x0a]).
  rewrite <- !map_app. apply encode_ascii.
  apply Forall_app. split; [repeat constructor|].
  apply Forall_app. split; [apply string_of_int_ascii|repeat constructor].
Qed.

(** ** [handle_controller_input] *)

Section InputFacts.

Local Open Scope Z_scope.

Lemma getitem_frequency_steps i :
  0 <= i < 3 ->
  getitem frequency_steps i = Return (nth (Z.to_nat i) frequency_steps 0).
Proof.
  intros H.
  assert (Hi : i = 0 \/ i = 1 \/ i = 2) by lia.
  destruct Hi as [->|[->| ->]]; reflexivity.
Qed.

Lemma step_mod_range k : 0 <= k mod Z.of_nat (List.length frequency_steps) < 3.
Proof. change (Z.of_nat (List.length frequency_steps)) with 3. apply Z.mod_pos_bound. lia. Qed.

(** The effect of a shift on a world with an open connection. *)
Lemma shift_frequency_effect op w c :
  primary (srv w) = Some c ->
  0 <= step_index w < 3 ->
  let f := op (shift_base w) (active_step w) in
  shift_frequency op w =
  set_input (Suspended InputDrain)
    (set_srv
       (mk_server (running (srv w)) (Some f) (frequency_step (srv w))
          (joystick (srv w))
          (Some (mk_connection (written c ++ set_frequency_line f) (closes c))))
       w).
Proof.
  intros Hc Hi f. subst f. unfold shift_frequency, shift_base, active_step.
  rewrite (getitem_frequency_steps _ Hi).
  destruct w as [[r lf fs j p] st it idx n m]. cbn in Hc, Hi. subst p.
  cbn [srv last_frequency step_index].
  unfold send. rewrite set_frequency_command_encodes. cbn [bind].
  destruct lf as [f0|]; reflexivity.
Qed.

Lemma shift_frequency_step_index op w :
  step_index (shift_frequency op w) = step_index w.
Proof.
  unfold shift_frequency.
  destruct (getitem frequency_steps (step_index w)); [|reflexivity].
  match goal with |- context [send ?c ?s] => destruct (send c s) end; reflexivity.
Qed.

(** The effect of a change of step. *)
Lemma change_step_effect delta w :
  change_step delta w =
  set_input (Suspended InputSleep)
    (set_step_index ((step_index w + delta) mod 3) w).
Proof.
  unfold change_step. change (Z.of_nat (List.length frequency_steps)) with 3.
  rewrite (getitem_frequency_steps ((step_index w + delta) mod 3))
    by (apply Z.mod_pos_bound; lia).
  reflexivity.
Qed.

(** C4. In a cycle of [handle_controller_input] that dispatches a left
    press (a right press), the new [last_frequency] is the base minus (plus)
    the step, the base being the prior [last_frequency] or 1000000 when
    there is none and the step the entry of [frequency_steps] at
    [step_index]; it is stored in [last_frequency], and exactly the line
    ["F {newvalue}\n"] is appended to what was written to the connection. *)
Theorem left_right_shift_last_frequency w c y :
  running (srv w) = true ->
  joystick (srv w) = true ->
  primary (srv w) = Some c ->
  0 <= step_index w < 3 ->
  (let w' := handle_controller_input_wake (-1, y) w in
   let f := shift_base w - active_step w in
   last_frequency (srv w') = Some f
   /\ wire w' = written c ++ set_frequency_line f
   /\ step_index w' = step_index w
   /\ input w' = Suspended InputDrain)
  /\
  (let w' := handle_controller_input_wake (1, y) w in
   let f := shift_base w + active_step w in
   last_frequency (srv w') = Some f
   /\ wire w' = written c ++ set_frequency_line f
   /\ step_index w' = step_index w
   /\ input w' = Suspended InputDrain).
Proof.
  intros Hr Hj Hc Hi.
  unfold handle_controller_input_wake. rewrite Hr.
  replace (joystick (srv (count_input w))) with true by (symmetry; exact Hj).
  cbn [fst snd]. change (-1 =? -1) with true. change (1 =? -1) with false.
  change (1 =? 1) with true. unfold dispatch.
  split.
  - rewrite (shift_frequency_effect Z.sub (count_input w) c Hc Hi).
    repeat split; reflexivity.
  - rewrite (shift_frequency_effect Z.add (count_input w) c Hc Hi).
    repeat split; reflexivity.
Qed.

(** A cycle that dispatches up ([y = 1]) or down ([y = -1]). *)
Lemma up_down_cycle w x y :
  running (srv w) = true ->
  joystick (srv w) = true ->
  x <> -1 -> x <> 1 ->
  y = 1 \/ y = -1 ->
  handle_controller_input_wake (x, y) w
  = set_input (Suspended InputSleep)
      (set_step_index ((step_index w + y) mod 3) (count_input w)).
Proof.
  intros Hr Hj Hl Hrt Hy.
  unfold handle_controller_input_wake. rewrite Hr.
  replace (joystick (srv (count_input w))) with true by (symmetry; exact Hj).
  cbn [fst snd]. apply Z.eqb_neq in Hl, Hrt. rewrite Hl, Hrt.
  unfold dispatch.
  destruct Hy as [-> | ->].
  - change (1 =? 1) with true. cbv iota. now rewrite change_step_effect.
  - change (-1 =? 1) with false. change (-1 =? -1) with true. cbv iota.
    now rewrite change_step_effect.
Qed.

(** C10. A cycle that dispatches an up or a down press changes the step
    index only: the server object, hence [last_frequency] and the bytes
    written to the connection, is the same as before, and the coroutine goes
    to sleep. *)
Theorem up_down_change_step_index_only w x y :
  running (srv w) = true ->
  joystick (srv w) = true ->
  x <> -1 -> x <> 1 ->
  y = 1 \/ y = -1 ->
  let w' := handle_controller_input_wake (x, y) w in
  srv w' = srv w
  /\ last_frequency (srv w') = last_frequency (srv w)
  /\ wire w' = wire w
  /\ sync w' = sync w
  /\ input w' = Suspended InputSleep
  /\ step_index w' = (step_index w + y) mod 3.
Proof.
  intros Hr Hj Hl Hrt Hy w'. subst w'.
  rewrite (up_down_cycle w x y Hr Hj Hl Hrt Hy).
  repeat split; reflexivity.
Qed.

(** C6. The dispatch performs the action of the first pressed direction in
    the order left, right, up, down, and nothing else: a left press wins
    whatever else is pressed, a cycle never both shifts the frequency and
    changes the step, and without a device or with the hat at rest the
    cycle does nothing but sleep. *)
Theorem dispatch_first_match_only w dpad_left dpad_right dpad_up dpad_down :
  running (srv w) = true ->
  (dispatch dpad_left dpad_right dpad_up dpad_down w =
   match first_pressed dpad_left dpad_right dpad_up dpad_down with
   | Some Left => shift_frequency Z.sub w
   | Some Right => shift_frequency Z.add w
   | Some Up => change_step 1 w
   | Some Down => change_step (-1) w
   | None => set_input (Suspended InputSleep) w
   end)
  /\ (dpad_left = true ->
      dispatch dpad_left dpad_right dpad_up dpad_down w = shift_frequency Z.sub w)
  /\ (step_index (dispatch dpad_left dpad_right dpad_up dpad_down w) = step_index w
      \/ srv (dispatch dpad_left dpad_right dpad_up dpad_down w) = srv w)
  /\ (joystick (srv w) = true ->
      handle_controller_input_wake (-1, 1) w = shift_frequency Z.sub (count_input w))
  /\ (joystick (srv w) = true ->
      handle_controller_input_wake (0, 0) w
      = set_input (Suspended InputSleep) (count_input w))
  /\ (joystick (srv w) = false ->
      forall hat,
        handle_controller_input_wake hat w
        = set_input (Suspended InputSleep) (count_input w)).
Proof.
  intros Hr. repeat split.
  - destruct dpad_left, dpad_right, dpad_up, dpad_down; reflexivity.
  - intros ->. reflexivity.
  - unfold dispatch.
    destruct dpad_left; [left; apply shift_frequency_step_index|].
    destruct dpad_right; [left; apply shift_frequency_step_index|].
    destruct dpad_up; [right; now rewrite change_step_effect|].
    destruct dpad_down; [right; now rewrite change_step_effect|].
    left. reflexivity.
  - intros Hj. unfold handle_controller_input_wake. rewrite Hr.
    replace (joystick (srv (count_input w))) with true by (symmetry; exact Hj).
    reflexivity.
  - intros Hj. unfold handle_controller_input_wake. rewrite Hr.
    replace (joystick (srv (count_input w))) with true by (symmetry; exact Hj).
    reflexivity.
  - intros Hj hat. unfold handle_controller_input_wake. rewrite Hr.
    replace (joystick (srv (count_input w))) with false by (symmetry; exact Hj).
    reflexivity.
Qed.

End InputFacts.

(** ** The step index *)

Section StepIndexFacts.

Variable todecimal : Py.char -> option N.

Local Open Scope Z_scope.

Lemma handle_controller_input_wake_range hat w :
  step_index_in_range w -> step_index_in_range (handle_controller_input_wake hat w).
Proof.
  unfold step_index_in_range, handle_controller_input_wake. intros H.
  destruct (running (srv w)); [|exact H].
  destruct (joystick (srv (count_input w))); [|exact H].
  unfold dispatch.
  repeat match goal with
         | |- context [if ?b then _ else _] => destruct b
         end;
    rewrite ?shift_frequency_step_index, ?change_step_effect;
    cbn [step_index set_input set_step_index count_input];
    try exact H; apply Z.mod_pos_bound; lia.
Qed.

Lemma on_event_range ev w :
  step_index_in_range w -> step_index_in_range (on_event todecimal ev w).
Proof.
  intros H. destruct ev as [| r | r | hat | r |]; cbn [on_event].
  - destruct (sync w) as [[]| |]; try exact H.
    all: unfold sync_frequencies_wake; destruct (running (srv w)); [|exact H];
      destruct (send read_frequency_command (srv (count_sync w))); exact H.
  - destruct (sync w) as [[]| |]; try exact H.
    destruct r; exact H.
  - destruct (sync w) as [[]| |]; try exact H.
    unfold sync_frequencies_received.
    destruct (response <- r;; get_rig_data_response todecimal response); exact H.
  - destruct (input w) as [[]| |]; try exact H.
    + apply handle_controller_input_wake_range. unfold step_index_in_range. cbn. lia.
    + now apply handle_controller_input_wake_range.
  - destruct (input w) as [[]| |]; try exact H.
    destruct r; exact H.
  - exact H.
Qed.

Lemma gather_range evs w :
  step_index_in_range w -> step_index_in_range (snd (gather todecimal evs w)).
Proof.
  revert w. induction evs as [|ev evs IH]; intros w H; cbn [gather].
  - destruct (gather_outcome w); exact H.
  - destruct (gather_outcome w); [exact H|].
    destruct ev; try (apply IH; now apply on_event_range); exact H.
Qed.

(** C5. The step index stays within [0 .. 2] in every run of the engine,
    because up and down take it modulo the length of [frequency_steps]: from
    an index in range, up gives the next index and wraps from the last to 0,
    and down gives the previous index and wraps from 0 to the last, never
    below 0. *)
Theorem step_index_wraps_both_ways w x :
  running (srv w) = true ->
  joystick (srv w) = true ->
  x <> -1 -> x <> 1 ->
  0 <= step_index w < 3 ->
  let up := handle_controller_input_wake (x, 1) w in
  let down := handle_controller_input_wake (x, -1) w in
  step_index up = (step_index w + 1) mod Z.of_nat (List.length frequency_steps)
  /\ step_index down = (step_index w - 1) mod Z.of_nat (List.length frequency_steps)
  /\ 0 <= step_index up < Z.of_nat (List.length frequency_steps)
  /\ 0 <= step_index down < Z.of_nat (List.length frequency_steps)
  /\ (step_index w = Z.of_nat (List.length frequency_steps) - 1 -> step_index up = 0)
  /\ (step_index w = 0 -> step_index down = Z.of_nat (List.length frequency_steps) - 1)
  /\ (forall evs s,
        0 <= step_index (snd (gather todecimal evs (boot s)))
        < Z.of_nat (List.length frequency_steps)).
Proof.
  intros Hr Hj Hl Hrt Hi up down. subst up down.
  rewrite (up_down_cycle w x 1 Hr Hj Hl Hrt (or_introl eq_refl)).
  rewrite (up_down_cycle w x (-1) Hr Hj Hl Hrt (or_intror eq_refl)).
  change (Z.of_nat (List.length frequency_steps)) with 3.
  cbn [step_index set_input set_step_index].
  change (step_index w + -1) with (step_index w - 1).
  repeat split; try (apply Z.mod_pos_bound; lia).
  - intros ->. reflexivity.
  - intros ->. reflexivity.
  - apply (gather_range evs (boot s)). unfold step_index_in_range. cbn. lia.
  - apply (gather_range evs (boot s)). unfold step_index_in_range. cbn. lia.
Qed.

End StepIndexFacts.

(** ** [sync_frequencies] *)

Section SyncFacts.

Variable todecimal : Py.char -> option N.

Local Open Scope Z_scope.

Lemma option_Z_eqb_false a b : a <> b -> option_Z_eqb a b = false.
Proof.
  destruct a as [x|], b as [y|]; cbn; intros H; try reflexivity.
  - apply Z.eqb_neq. congruence.
  - congruence.
Qed.

(** The frequency after the update of lines 111 to 113. *)
Lemma sync_frequencies_received_last_frequency w response freq :
  get_rig_data_response todecimal response = Return freq ->
  last_frequency (srv (sync_frequencies_received todecimal (Return response) w))
  = if truthy freq && negb (option_Z_eqb freq (last_frequency (srv w)))
    then freq else last_frequency (srv w).
Proof.
  intros H. unfold sync_frequencies_received. cbn [bind]. rewrite H.
  destruct (truthy freq && negb (option_Z_eqb freq (last_frequency (srv w))));
    reflexivity.
Qed.

(** What lines 111 to 113 store as they are written: a decoded value other
    than 0 that differs from [last_frequency]; a failed decode leaves
    [last_frequency] as it was. *)
Lemma sync_frequencies_stores_nonzero w response freq :
  sync w = Suspended SyncRead ->
  get_rig_data_response todecimal response = Return freq ->
  let w' := on_event todecimal (SyncReceived (Return response)) w in
  (forall f, freq = Some f -> f <> 0 -> last_frequency (srv w) <> Some f ->
             last_frequency (srv w') = Some f)
  /\ (freq = None -> last_frequency (srv w') = last_frequency (srv w)).
Proof.
  intros Hpc Hd w'. subst w'. cbn [on_event]. rewrite Hpc.
  rewrite (sync_frequencies_received_last_frequency _ _ _ Hd).
  split.
  - intros f -> Hf Hne. cbn [truthy].
    apply Z.eqb_neq in Hf. rewrite Hf.
    rewrite option_Z_eqb_false by congruence. reflexivity.
  - intros ->. reflexivity.
Qed.

(** C3. The sync loop loses the decoded value 0. With no [last_frequency]
    yet, the response ["0\n"] decodes to 0, which differs from the absent
    value, and the cycle leaves [last_frequency] absent: [if freq and ...]
    tests the truth value of [freq] where it means the test for a failed
    decode, [None]. Every other integer is stored, the negative ones too,
    and the dispatch, which tests [is None], does store 0, sends ["F 0\n"]
    for it and takes a stored 0 as its base. *)
Theorem sync_frequencies_drops_zero :
  let w := set_sync (Suspended SyncRead)
             (boot (mk_server true None 1000 true (Some (mk_connection [] 0)))) in
  let answer (s : string) := SyncReceived (Return (ascii_bytes s ++ [x0a])) in
  get_rig_data_response todecimal (ascii_bytes "0" ++ [x0a]) = Return (Some 0)
  /\ last_frequency (srv w) = None
  /\ last_frequency (srv (on_event todecimal (answer "0"%string) w)) = None
  /\ last_frequency (srv (on_event todecimal (answer "-5"%string) w)) = Some (-5)
  /\ last_frequency (srv (on_event todecimal (answer "7"%string) w)) = Some 7
  /\ (let d := handle_controller_input_wake (-1, 0)
                 (live (Some 1000) 1000 [] 0 SyncSleep InputSleep 0 0 0) in
      last_frequency (srv d) = Some 0
      /\ wire d = ascii_bytes "F 0" ++ [x0a])
  /\ last_frequency
       (srv (handle_controller_input_wake (-1, 0)
               (live (Some 0) 1000 [] 0 SyncSleep InputSleep 0 0 0)))
     = Some (-1000).
Proof.
  cbn zeta. repeat split.
Qed.

End SyncFacts.

(** ** [start], [stop] and the main block *)

Section LifeCycleFacts.

Variable todecimal : Py.char -> option N.

Local Open Scope Z_scope.

(** C7. When the opening of the connection fails, [start] raises the
    failure with [running] still false and both coroutines never run: no
    iteration of either loop has taken place, whatever events follow, and
    the same holds when the main block has ended. *)
Theorem start_fails_before_the_loops e evs j :
  let out := start todecimal (Raise e) evs (init j) in
  let final := snd (main todecimal j (Raise e) evs) in
  fst out = Some (Raise e)
  /\ running (srv (snd out)) = false
  /\ sync (snd out) = Suspended SyncStart
  /\ input (snd out) = Suspended InputStart
  /\ sync_iterations (snd out) = 0%nat
  /\ input_iterations (snd out) = 0%nat
  /\ wire (snd out) = []
  /\ running (srv final) = false
  /\ sync_iterations final = 0%nat
  /\ input_iterations final = 0%nat
  /\ wire final = [].
Proof.
  cbn [start open_connection bind fst snd].
  repeat split; unfold main; cbn [start open_connection bind]; destruct e; reflexivity.
Qed.

(** When the connection opens, the loops do run. *)
Lemma start_runs_the_loops j :
  let out := start todecimal (Return tt) [WakeSync; WakeInput (0, 0)] (init j) in
  fst out = None
  /\ running (srv (snd out)) = true
  /\ sync_iterations (snd out) = 1%nat
  /\ input_iterations (snd out) = 1%nat
  /\ wire (snd out) = ascii_bytes "f" ++ [x0a].
Proof.
  destruct j; repeat split.
Qed.

End LifeCycleFacts.

(** ** Closing the connection *)

Section CloseFacts.

Variable todecimal : Py.char -> option N.

Local Open Scope Z_scope.






(** C8. After a successful open, a failure of [reader.read] (the peer
    resets the connection) ends [sync_frequencies] and [start] with
    [OSError]; the main block has no handler for it, and the program ends
    with the connection opened and never closed. *)
Theorem connection_left_open_on_failure j :
  let out := main todecimal j (Return tt)
               [WakeSync; SyncDrained (Return tt); SyncReceived (Raise OSError)] in
  fst out = Some (Raise OSError)
  /\ (exists c, primary (srv (snd out)) = Some c)
  /\ times_closed (snd out) = 0%nat.
Proof.
  cbn. repeat split. eexists. reflexivity.
Qed.

(** The sibling path: on an interrupt the main block does run [stop],
    which clears [running] and calls [close_connection]; in the event loop of
    the second [asyncio.run] the close raises and completes nothing. *)
Lemma close_attempted_on_interrupt j :
  let out := main todecimal j (Return tt)
               [WakeSync; SyncDrained (Return tt); Sigint] in
  fst out = Some (Raise RuntimeError)
  /\ running (srv (snd out)) = false
  /\ times_closed (snd out) = 0%nat.
Proof.
  cbn. repeat split.
Qed.

End CloseFacts.

(** ** The two loops side by side *)

Section RaceFacts.

Variable todecimal : Py.char -> option N.

Local Open Scope Z_scope.

Lemma live_wake_sync lf fs wr cl i idx n m :
  on_event todecimal WakeSync (live lf fs wr cl SyncSleep i idx n m)
  = live lf fs (wr ++ ascii_bytes "f" ++ [x0a]) cl SyncDrain i idx (S n) m.
Proof. reflexivity. Qed.

Lemma live_sync_drained lf fs wr cl i idx n m :
  on_event todecimal (SyncDrained (Return tt)) (live lf fs wr cl SyncDrain i idx n m)
  = live lf fs wr cl SyncRead i idx n m.
Proof. reflexivity. Qed.

Lemma live_sync_received response freq lf fs wr cl i idx n m :
  get_rig_data_response todecimal response = Return freq ->
  on_event todecimal (SyncReceived (Return response))
    (live lf fs wr cl SyncRead i idx n m)
  = live (if truthy freq && negb (option_Z_eqb freq lf) then freq else lf)
      fs wr cl SyncSleep i idx n m.
Proof.
  intros H. unfold live. cbn [on_event sync]. unfold sync_frequencies_received.
  cbn [bind]. rewrite H. cbn [srv last_frequency].
  destruct (truthy freq && negb (option_Z_eqb freq lf)); reflexivity.
Qed.

Lemma live_wake_input_left y lf fs wr cl s idx n m :
  0 <= idx < 3 ->
  let f := match lf with Some f => f | None => 1000000 end
           - nth (Z.to_nat idx) frequency_steps 0 in
  on_event todecimal (WakeInput (-1, y)) (live lf fs wr cl s InputSleep idx n m)
  = live (Some f) fs (wr ++ set_frequency_line f) cl s InputDrain idx n (S m).
Proof.
  intros Hi f. subst f. unfold live. cbn [on_event input].
  unfold handle_controller_input_wake. cbn [srv running joystick count_input fst snd].
  change (-1 =? -1) with true. unfold dispatch.
  rewrite (shift_frequency_effect Z.sub _ (mk_connection wr cl)) by (try reflexivity; exact Hi).
  reflexivity.
Qed.

Lemma live_wake_input_right y lf fs wr cl s idx n m :
  0 <= idx < 3 ->
  let f := match lf with Some f => f | None => 1000000 end
           + nth (Z.to_nat idx) frequency_steps 0 in
  on_event todecimal (WakeInput (1, y)) (live lf fs wr cl s InputSleep idx n m)
  = live (Some f) fs (wr ++ set_frequency_line f) cl s InputDrain idx n (S m).
Proof.
  intros Hi f. subst f. unfold live. cbn [on_event input].
  unfold handle_controller_input_wake. cbn [srv running joystick count_input fst snd].
  change (1 =? -1) with false. change (1 =? 1) with true. unfold dispatch.
  rewrite (shift_frequency_effect Z.add _ (mk_connection wr cl)) by (try reflexivity; exact Hi).
  reflexivity.
Qed.

Lemma live_input_drained lf fs wr cl s idx n m :
  on_event todecimal (InputDrained (Return tt)) (live lf fs wr cl s InputDrain idx n m)
  = live lf fs wr cl s InputSleep idx n m.
Proof. reflexivity. Qed.

Lemma gather_live ev evs lf fs wr cl s i idx n m :
  ev <> Sigint ->
  gather todecimal (ev :: evs) (live lf fs wr cl s i idx n m)
  = gather todecimal evs (on_event todecimal ev (live lf fs wr cl s i idx n m)).
Proof. intros H. destruct ev; try reflexivity. congruence. Qed.

Lemma gather_live_end lf fs wr cl s i idx n m :
  gather todecimal [] (live lf fs wr cl s i idx n m)
  = (None, live lf fs wr cl s i idx n m).
Proof. reflexivity. Qed.

Ltac run_live Hd Hi :=
  repeat first
    [ rewrite gather_live_end
    | rewrite gather_live by discriminate
    | rewrite live_wake_sync
    | rewrite live_sync_drained
    | rewrite (live_sync_received _ _ _ _ _ _ _ _ _ _ Hd)
    | rewrite (live_wake_input_left _ _ _ _ _ _ _ _ _ Hi)
    | rewrite (live_wake_input_right _ _ _ _ _ _ _ _ _ Hi)
    | rewrite live_input_drained ].

Ltac pick_written :=
  cbn [snd srv last_frequency wire primary written live];
  match goal with
  | |- context [if ?b then _ else _] =>
      destruct b eqn:?; pick_written
  | |- (exists f, ?freq = Some f /\ ?freq = Some f) \/ _ =>
      destruct freq; [left; eexists; split; reflexivity | discriminate]
  | |- _ \/ (exists v pre post, Some ?f = Some v /\ _) =>
      right; exists f;
      first [ exists [], (ascii_bytes "f" ++ [x0a]); split; [reflexivity|];
              rewrite <- ?app_assoc; reflexivity
            | exists (ascii_bytes "f" ++ [x0a]), []; split; [reflexivity|];
              rewrite <- ?app_assoc, ?app_nil_r; reflexivity ]
  end.

(** C9. Take one cycle of [sync_frequencies] (the request, the end of the
    drain, the arrival of the response) and one cycle of
    [handle_controller_input] that dispatches left or right (the dispatch,
    the end of the drain), merged in any order that the event loop can
    choose. At the end [last_frequency] is the value that the sync cycle
    decoded or the value that the dispatch computed and sent in its
    ["F ...\n"] line: a whole value written by one of the two, nothing
    else. *)
Theorem race_ends_with_a_written_value w c response freq x y evs :
  running (srv w) = true ->
  joystick (srv w) = true ->
  primary (srv w) = Some c ->
  sync w = Suspended SyncSleep ->
  input w = Suspended InputSleep ->
  0 <= step_index w < 3 ->
  x = -1 \/ x = 1 ->
  get_rig_data_response todecimal response = Return freq ->
  interleaving
    [WakeSync; SyncDrained (Return tt); SyncReceived (Return response)]
    [WakeInput (x, y); InputDrained (Return tt)]
    evs ->
  let w' := snd (gather todecimal evs w) in
  (exists f, freq = Some f /\ last_frequency (srv w') = Some f)
  \/ (exists v pre post,
         last_frequency (srv w') = Some v
         /\ wire w' = written c ++ pre ++ set_frequency_line v ++ post).
Proof.
  intros Hr Hj Hc Hs Hin Hi Hx Hd Hevs w'. subst w'.
  destruct w as [[r lf fs j p] s i idx n m].
  cbn in Hr, Hj, Hc, Hs, Hin, Hi. subst r j p s i.
  destruct c as [wr cl]. cbn [written].
  change (mk_world _ _ _ _ _ _) with (live lf fs wr cl SyncSleep InputSleep idx n m).
  repeat match goal with
         | H : interleaving _ _ _ |- _ => inversion H; clear H; subst
         end;
    destruct Hx as [-> | ->]; run_live Hd Hi; pick_written.
Qed.

End RaceFacts.

(** ** Worked examples *)

Section Examples.

Local Open Scope Z_scope.

(** The two examples of the specification: no frequency yet, step 1000,
    left; and frequency 145000000, step 12500, right. *)
Lemma left_right_shift_last_frequency_witness :
  (let w' := handle_controller_input_wake (-1, 0)
               (live None 1000 [] 0 SyncSleep InputSleep 0 0 0) in
   last_frequency (srv w') = Some 999000
   /\ wire w' = ascii_bytes "F 999000" ++ [x0a])
  /\
  (let w' := handle_controller_input_wake (1, 0)
               (live (Some 145000000) 1000 [] 0 SyncSleep InputSleep 1 0 0) in
   last_frequency (srv w') = Some 145012500
   /\ wire w' = ascii_bytes "F 145012500" ++ [x0a]).
Proof.
  split.
  - destruct (left_right_shift_last_frequency
                (live None 1000 [] 0 SyncSleep InputSleep 0 0 0)
                (mk_connection [] 0) 0 eq_refl eq_refl eq_refl ltac:(cbn; lia))
      as [(H1 & H2 & _) _].
    split; [exact H1|exact H2].
  - destruct (left_right_shift_last_frequency
                (live (Some 145000000) 1000 [] 0 SyncSleep InputSleep 1 0 0)
                (mk_connection [] 0) 0 eq_refl eq_refl eq_refl ltac:(cbn; lia))
      as [_ (H1 & H2 & _)].
    split; [exact H1|exact H2].
Defined.

(** Down from index 0 gives 2, up from index 2 gives 0. *)
Lemma step_index_wraps_both_ways_witness :
  step_index (handle_controller_input_wake (0, -1)
                (live None 1000 [] 0 SyncSleep InputSleep 0 0 0)) = 2
  /\ step_index (handle_controller_input_wake (0, 1)
                   (live None 1000 [] 0 SyncSleep InputSleep 2 0 0)) = 0.
Proof.
  split.
  - destruct (step_index_wraps_both_ways Py.ascii_todecimal
                (live None 1000 [] 0 SyncSleep InputSleep 0 0 0) 0
                eq_refl eq_refl ltac:(lia) ltac:(lia) ltac:(cbn; lia))
      as (_ & _ & _ & _ & _ & H & _).
    exact (H eq_refl).
  - destruct (step_index_wraps_both_ways Py.ascii_todecimal
                (live None 1000 [] 0 SyncSleep InputSleep 2 0 0) 0
                eq_refl eq_refl ltac:(lia) ltac:(lia) ltac:(cbn; lia))
      as (_ & _ & _ & _ & H & _).
    exact (H eq_refl).
Defined.

(** Left and up pressed together: the frequency goes down by the step and
    the step index stays. *)
Lemma dispatch_first_match_only_witness :
  let w := live (Some 145000000) 1000 [] 0 SyncSleep InputSleep 1 0 0 in
  last_frequency (srv (handle_controller_input_wake (-1, 1) w)) = Some 144987500
  /\ step_index (handle_controller_input_wake (-1, 1) w) = 1.
Proof.
  intros w.
  destruct (dispatch_first_match_only w true false true false eq_refl)
    as (_ & _ & _ & H & _).
  rewrite (H eq_refl). split; reflexivity.
Defined.

(** Up at index 0 with frequency 145000000: index 1, the rest as before. *)
Lemma up_down_change_step_index_only_witness :
  let w := live (Some 145000000) 1000 [] 0 SyncSleep InputSleep 0 0 0 in
  let w' := handle_controller_input_wake (0, 1) w in
  last_frequency (srv w') = Some 145000000 /\ wire w' = [] /\ step_index w' = 1.
Proof.
  intros w w'.
  destruct (up_down_change_step_index_only w 0 1 eq_refl eq_refl
              ltac:(lia) ltac:(lia) (or_introl eq_refl))
    as (_ & H1 & H2 & _ & _ & H3).
  split; [exact H1|]. split; [exact H2|exact H3].
Defined.

(** The dispatch runs first and sets 999000, then the response 145000000
    arrives and the sync cycle stores it. *)
Lemma race_ends_with_a_written_value_witness :
  let w := live None 1000 [] 0 SyncSleep InputSleep 0 0 0 in
  let response := ascii_bytes "145000000" ++ [x0a] in
  let w' := snd (gather Py.ascii_todecimal
                   [WakeSync; WakeInput (-1, 0); SyncDrained (Return tt);
                    SyncReceived (Return response); InputDrained (Return tt)] w) in
  last_frequency (srv w') = Some 145000000
  /\ ((exists f, Some 145000000 = Some f /\ last_frequency (srv w') = Some f)
      \/ (exists v pre post,
             last_frequency (srv w') = Some v
             /\ wire w' = [] ++ pre ++ set_frequency_line v ++ post)).
Proof.
  intros w response w'. split; [reflexivity|].
  exact (race_ends_with_a_written_value Py.ascii_todecimal w
           (mk_connection [] 0) response (Some 145000000) (-1) 0
           [WakeSync; WakeInput (-1, 0); SyncDrained (Return tt);
            SyncReceived (Return response); InputDrained (Return tt)]
           eq_refl eq_refl eq_refl eq_refl eq_refl ltac:(cbn; lia)
           (or_introl eq_refl) eq_refl
           ltac:(repeat first [apply interleaving_nil
                              | apply interleaving_left
                              | apply interleaving_right])).
Defined.

End Examples.

(** * Further properties of the code *)

(** ** More on the text functions *)

Module TextFacts.

Import Py.
Local Open Scope N_scope.

Lemma lstrip_blank s : blank s -> lstrip s = [].
Proof.
  induction 1 as [|c t Hc _ IH]; [reflexivity|]. cbn. now rewrite Hc.
Qed.


Lemma rstrip_app_blank a b : blank b -> rstrip (a ++ b) = rstrip a.
Proof.
  intros Hb. induction a as [|c a IH].
  - cbn [app]. induction Hb as [|d t Hd _ IH]; [reflexivity|].
    cbn [rstrip]. now rewrite IH, Hd.
  - cbn [app rstrip]. now rewrite IH.
Qed.



Lemma rstrip_solid s :
  Forall (fun c => isspace c = false) s -> rstrip s = s.
Proof.
  induction 1 as [|c t Hc _ IH]; [reflexivity|].
  now rewrite PyFacts.rstrip_keep, IH.
Qed.

Lemma lstrip_solid s :
  Forall (fun c => isspace c = false) s -> lstrip s = s.
Proof.
  destruct 1 as [|c t Hc _]; [reflexivity|]. cbn. now rewrite Hc.
Qed.

Lemma split_without sep s : ~ In sep s -> split sep s = [s].
Proof.
  induction s as [|c t IH]; [reflexivity|]. intros Hn. cbn [split].
  destruct (N.eqb_spec c sep) as [->|_]; [exfalso; apply Hn; now left|].
  rewrite IH; [reflexivity|]. intros H. apply Hn. now right.
Qed.








End TextFacts.

(** ** More on [get_rig_data] *)

Section DecimalFacts.

Local Open Scope Z_scope.

(** A byte of a decimal string: a digit or the minus sign. *)
Lemma string_of_uint_digits u :
  Forall (fun b => (48 <= Byte.to_N b <= 57)%N)
         (ascii_bytes (NilEmpty.string_of_uint u)).
Proof.
  induction u; cbn; constructor; try assumption; cbn; lia.
Qed.

Lemma decimal_bytes f :
  Forall (fun b => (Byte.to_N b = 45 \/ 48 <= Byte.to_N b <= 57)%N)
         (ascii_bytes (decimal f)).
Proof.
  assert (H : forall u,
             Forall (fun b => (Byte.to_N b = 45 \/ 48 <= Byte.to_N b <= 57)%N)
                    (ascii_bytes (NilEmpty.string_of_uint u))).
  { intros u. eapply Forall_impl; [|apply string_of_uint_digits].
    cbn. intros b Hb. now right. }
  unfold decimal. destruct f as [|p|p]; cbn [Z.to_int NilEmpty.string_of_int].
  - apply H.
  - apply H.
  - cbn. constructor; [now left|apply H].
Qed.

Lemma decimal_ascii_only f : ascii_only (ascii_bytes (decimal f)).
Proof.
  eapply Forall_impl; [|apply decimal_bytes]. cbn. intros b [->|H]; lia.
Qed.

Lemma decimal_solid f :
  Forall (fun c => Py.isspace c = false) (Py.literal (decimal f)).
Proof.
  unfold Py.literal. apply Forall_map.
  eapply Forall_impl; [|apply decimal_bytes]. cbn. intros b Hb.
  unfold Py.isspace.
  repeat match goal with
         | |- context [(?a <=? ?b)%N] => destruct (N.leb_spec a b)
         | |- context [(?a =? ?b)%N] => destruct (N.eqb_spec a b)
         end; cbn; try reflexivity; lia.
Qed.

Lemma decimal_no_newline f : ~ In Py.LF (Py.literal (decimal f)).
Proof.
  intros H. pose proof (decimal_solid f) as Hs.
  rewrite Forall_forall in Hs. specialize (Hs _ H). discriminate Hs.
Qed.

(** The digits of a number in base ten, read from the left with an
    accumulator. *)
Lemma digits_value_of_uint u acc :
  digits_value (Py.literal (NilEmpty.string_of_uint u)) acc
  = Some (Z.of_N (DecimalPos.Unsigned.of_lu (Decimal.rev u))
          + acc * 10 ^ Z.of_N (DecimalPos.Unsigned.usize u)).
Proof.
  revert acc. induction u; intros acc;
    [ cbn; f_equal; lia | .. ];
    cbn [NilEmpty.string_of_uint Py.literal list_byte_of_string
         list_ascii_of_string map];
    change (Py.literal ?s) with (map Byte.to_N (list_byte_of_string s)) in IHu;
    unfold list_byte_of_string in IHu;
    cbn [digits_value byte_of_ascii Byte.to_N Byte.of_bits Byte.to_bits
         Py.between N.leb N.compare Pos.compare Pos.compare_cont andb];
    cbn -[Z.mul Z.add Z.pow DecimalPos.Unsigned.of_lu Decimal.rev Z.of_N];
    rewrite IHu; f_equal;
    match goal with
    | |- context [Decimal.rev (?D u)] =>
        change (Decimal.rev (D u)) with (Decimal.revapp u (D Decimal.Nil));
        rewrite (DecimalPos.Unsigned.of_lu_revapp u (D Decimal.Nil))
    end;
    cbn [DecimalPos.Unsigned.of_lu DecimalPos.Unsigned.usize];
    rewrite N2Z.inj_add, N2Z.inj_mul, N2Z.inj_pow, N2Z.inj_succ, Z.pow_succ_r
      by apply N2Z.is_nonneg;
    cbn [Z.of_N N.mul N.add Pos.mul Pos.add]; ring.
Qed.

Lemma digits_value_of_pos p :
  digits_value (Py.literal (NilEmpty.string_of_uint (Pos.to_uint p))) 0
  = Some (Z.pos p).
Proof.
  rewrite digits_value_of_uint, <- DecimalPos.Unsigned.of_uint_alt,
    DecimalPos.Unsigned.of_to.
  cbn [Z.of_N]. f_equal; lia.
Qed.

End DecimalFacts.

Section ResponseExtras.

Variable todecimal : Py.char -> option N.

Local Open Scope Z_scope.

Lemma decode_ascii bs :
  ascii_only bs -> Py.decode bs = Return (map Byte.to_N bs).
Proof.
  intros H. unfold Py.decode.
  assert (Hd : Py.utf8_decode_N (map Byte.to_N bs) = Some (map Byte.to_N bs)).
  { induction H as [|b bs Hb _ IH]; [reflexivity|].
    cbn [map Py.utf8_decode_N].
    apply N.ltb_lt in Hb. change 0x80%N with 128%N. rewrite Hb, IH. reflexivity. }
  now rewrite Hd.
Qed.

Lemma decimal_literal_decimal f :
  decimal_literal (Py.literal (decimal f)) = Some f.
Proof.
  unfold decimal. destruct f as [|p|p]; cbn [Z.to_int NilEmpty.string_of_int].
  - reflexivity.
  - pose proof (digits_value_of_pos p) as Hv.
    pose proof (string_of_uint_digits (Pos.to_uint p)) as Hd.
    unfold Py.literal in *.
    destruct (ascii_bytes (NilEmpty.string_of_uint (Pos.to_uint p)))
      as [|b bs] eqn:E; unfold ascii_bytes in E; rewrite E in *.
    + discriminate Hv.
    + cbn [map] in *. unfold decimal_literal.
      inversion Hd as [|? ? Hb _]; subst.
      destruct (N.eqb_spec (Byte.to_N b) 0x2D); [lia|].
      destruct (N.eqb_spec (Byte.to_N b) 0x2B); [lia|].
      exact Hv.
  - pose proof (digits_value_of_pos p) as Hv.
    change (Py.literal (String "-" (NilEmpty.string_of_uint (Pos.to_uint p))))
      with (0x2D%N :: Py.literal (NilEmpty.string_of_uint (Pos.to_uint p))).
    unfold decimal_literal. change (0x2D =? 0x2D)%N with true. cbv iota.
    destruct (Py.literal (NilEmpty.string_of_uint (Pos.to_uint p))) as [|c t] eqn:E.
    + discriminate Hv.
    + cbn [nonempty]. rewrite Hv. reflexivity.
Qed.

(** X1. The response handling of [get_rig_data], its two [print]s
    included, raises [UnicodeDecodeError] exactly for the responses that are
    not UTF-8, before anything is printed. On UTF-8 text every exception it
    raises is one that a [print] raised ([UnicodeEncodeError] when the
    console cannot encode the response): the first [print] runs before the
    [try] and its failure ends the call whatever the last line is, the
    second one runs only when the last line is no integer. When the prints
    succeed, the call returns the integer or [None]. *)
Theorem get_rig_data_raises_decode_or_print console response :
  ((Py.decode response = Raise UnicodeDecodeError
    /\ get_rig_data_response_printing todecimal console response
       = Raise UnicodeDecodeError)
   \/ exists text,
        Py.decode response = Return text
        /\ get_rig_data_response_printing todecimal console response
           = match console (received_message (Py.strip text)) with
             | Raise e => Raise e
             | Return _ =>
                 match Py.int_of_str todecimal (spec_last_line text) with
                 | Return frequency => Return (Some frequency)
                 | Raise _ =>
                     match console (error_message (spec_last_line text)) with
                     | Raise e => Raise e
                     | Return _ => Return None
                     end
                 end
             end)
  /\ (forall e,
        get_rig_data_response_printing todecimal console response = Raise e ->
        (e = UnicodeDecodeError /\ Py.decode response = Raise UnicodeDecodeError)
        \/ exists message, console message = Raise e)
  /\ ((forall message, console message = Return tt) ->
      get_rig_data_response_printing todecimal console response
      = get_rig_data_response todecimal response).
Proof.
  destruct (Py.decode response) as [text|e0] eqn:Hd.
  - assert (Hp : get_rig_data_response_printing todecimal console response
                 = match console (received_message (Py.strip text)) with
                   | Raise e => Raise e
                   | Return _ =>
                       match Py.int_of_str todecimal (spec_last_line text) with
                       | Return frequency => Return (Some frequency)
                       | Raise _ =>
                           match console (error_message (spec_last_line text)) with
                           | Raise e => Raise e
                           | Return _ => Return None
                           end
                       end
                   end).
    { unfold get_rig_data_response_printing. rewrite Hd. cbn [bind].
      rewrite (getitem_last _ ([] : Py.str)) by apply PyFacts.split_nonempty.
      cbn [bind]. rewrite PyFacts.last_line_agrees.
      destruct (console (received_message (Py.strip text))) as [u|e]; cbn [bind];
        [|reflexivity].
      destruct (Py.int_of_str todecimal (spec_last_line text)) as [n|e] eqn:Hi;
        [reflexivity|].
      rewrite (int_of_str_raises_value_error _ _ _ Hi).
      destruct (console (error_message (spec_last_line text))); reflexivity. }
    split; [|split].
    + right. exists text. split; [reflexivity|exact Hp].
    + intros e He. right. rewrite Hp in He.
      destruct (console (received_message (Py.strip text))) as [u|e1] eqn:H1.
      * destruct (Py.int_of_str todecimal (spec_last_line text)); [discriminate|].
        destruct (console (error_message (spec_last_line text))) as [u2|e2] eqn:H2;
          [discriminate|].
        injection He as <-. eauto.
      * injection He as <-. eauto.
    + intros Hc. rewrite Hp, !Hc.
      now rewrite (get_rig_data_response_text todecimal _ _ Hd).
  - assert (He0 : e0 = UnicodeDecodeError).
    { unfold Py.decode in Hd.
      destruct (Py.utf8_decode_N (map Byte.to_N response)); congruence. }
    subst e0.
    assert (Hp : get_rig_data_response_printing todecimal console response
                 = Raise UnicodeDecodeError).
    { unfold get_rig_data_response_printing. now rewrite Hd. }
    split; [|split].
    + left. now split.
    + intros e He. left. rewrite Hp in He. injection He as <-. now split.
    + intros _. rewrite Hp. unfold get_rig_data_response. now rewrite Hd.
Qed.

(** On a console that encodes ASCII only, a response that is UTF-8 text
    with a letter outside ASCII before its last line ends the call with
    [UnicodeEncodeError], although the last line is an integer. *)
Lemma get_rig_data_print_fails_on_ascii_console :
  get_rig_data_response_printing todecimal ascii_console
    ([xc3; xa9; x0a] ++ ascii_bytes "145000000" ++ [x0a])
  = Raise UnicodeEncodeError
  /\ get_rig_data_response todecimal
       ([xc3; xa9; x0a] ++ ascii_bytes "145000000" ++ [x0a])
     = Return (Some 145000000).
Proof.
  split; reflexivity.
Qed.

(** X2. A response that is nothing but white space, the empty response of
    a closed stream included, gives [None]. *)
Theorem get_rig_data_blank_response response text :
  Py.decode response = Return text ->
  blank text ->
  get_rig_data_response todecimal response = Return None.
Proof.
  intros Hd Hb. rewrite (get_rig_data_response_text _ _ _ Hd).
  unfold spec_last_line.
  pose proof (TextFacts.rstrip_app_blank [] text Hb) as E.
  cbn [app] in E. rewrite E. reflexivity.
Qed.


(** X4. Writing and reading agree on the numbers: the decimal string that
    [set_frequency] puts after ["F "], sent back as a line, is decoded by
    [get_rig_data] to the same integer, negative numbers and 0 included
    ([int(str(f)) == f]). *)
Theorem get_rig_data_reads_back_decimal f :
  get_rig_data_response todecimal (ascii_bytes (decimal f) ++ [x0a]) = Return (Some f).
Proof.
  assert (Hd : Py.decode (ascii_bytes (decimal f) ++ [x0a])
               = Return (Py.literal (decimal f) ++ [Py.LF])).
  { rewrite decode_ascii.
    - now rewrite map_app.
    - apply Forall_app. split; [apply decimal_ascii_only|repeat constructor]. }
  rewrite (get_rig_data_response_text _ _ _ Hd).
  assert (E : spec_last_line (Py.literal (decimal f) ++ [Py.LF])
              = Py.literal (decimal f)).
  { unfold spec_last_line.
    rewrite TextFacts.rstrip_app_blank by (repeat constructor).
    rewrite TextFacts.rstrip_solid by apply decimal_solid.
    rewrite TextFacts.split_without by apply decimal_no_newline.
    cbn [last]. unfold Py.strip.
    rewrite TextFacts.lstrip_solid, TextFacts.rstrip_solid by apply decimal_solid.
    reflexivity. }
  rewrite E.
  now rewrite (IntFacts.int_of_decimal_literal todecimal _ _ (decimal_literal_decimal f)).
Qed.

End ResponseExtras.

(** X5. The command of [set_frequency] is one line of ASCII: its only
    newline is its last byte. *)
Theorem set_frequency_line_is_one_line f :
  ascii_only (set_frequency_line f)
  /\ last (set_frequency_line f) x00 = x0a
  /\ (forall pre post, set_frequency_line f = pre ++ x0a :: post -> post = []).
Proof.
  unfold set_frequency_line. fold (decimal f).
  assert (Hbody : Forall (fun b => b <> x0a) (ascii_bytes "F " ++ ascii_bytes (decimal f))).
  { apply Forall_app. split.
    - repeat constructor; discriminate.
    - eapply Forall_impl; [|apply decimal_bytes]. cbn.
      intros b Hb ->. cbn in Hb. lia. }
  split; [|split].
  - apply Forall_app. split; [repeat constructor|].
    apply Forall_app. split; [apply decimal_ascii_only|repeat constructor].
  - rewrite app_assoc. apply last_last.
  - rewrite app_assoc.
    set (body := ascii_bytes "F " ++ ascii_bytes (decimal f)) in *.
    clearbody body. intros pre. revert body Hbody.
    induction pre as [|p pre IH]; intros body Hbody post E.
    + destruct body as [|b body]; cbn in E.
      * now injection E.
      * injection E as -> _. inversion Hbody; congruence.
    + destruct body as [|b body]; cbn in E.
      * injection E as _ E. now destruct pre.
      * injection E as _ E. inversion Hbody; subst. eapply IH; eassumption.
Qed.

Lemma get_rig_data_blank_response_witness :
  get_rig_data_response Py.ascii_todecimal (ascii_bytes " " ++ [x0d; x0a])
  = Return None
  /\ get_rig_data_response Py.ascii_todecimal [] = Return None.
Proof.
  split.
  - apply (get_rig_data_blank_response Py.ascii_todecimal
             (ascii_bytes " " ++ [x0d; x0a]) [32%N; 13%N; 10%N] eq_refl).
    repeat constructor.
  - apply (get_rig_data_blank_response Py.ascii_todecimal [] [] eq_refl).
    constructor.
Defined.


(** ** Invariants of the running engine *)

Section EngineFacts.

Variable todecimal : Py.char -> option N.

Local Open Scope Z_scope.

(** What [send] does to a server with a connection. *)
Lemma send_effect command data s :
  Py.encode command = Return data ->
  send command s
  = match primary s with
    | Some c => Return (set_primary (Some (mk_connection (written c ++ data) (closes c))) s)
    | None => Raise AttributeError
    end.
Proof. intros H. unfold send, writer_write. now rewrite H. Qed.

Lemma read_frequency_command_encodes :
  Py.encode read_frequency_command = Return read_frequency_line.
Proof. reflexivity. Qed.

(** The loop head of [sync_frequencies] in a running engine. *)
Lemma sync_frequencies_wake_running w :
  engine_running w ->
  exists c,
    primary (srv w) = Some c
    /\ sync_frequencies_wake w
       = set_sync (Suspended SyncDrain)
           (set_srv (set_primary
                       (Some (mk_connection (written c ++ read_frequency_line) (closes c)))
                       (srv w))
              (count_sync w)).
Proof.
  intros (Hr & Ho & _ & _). unfold open_unclosed in Ho.
  destruct (primary (srv w)) as [c|] eqn:Hc; [|contradiction].
  exists c. split; [reflexivity|].
  unfold sync_frequencies_wake. rewrite Hr.
  rewrite (send_effect _ _ _ read_frequency_command_encodes).
  cbn [count_sync srv]. now rewrite Hc.
Qed.

(** The loop head of [handle_controller_input] in a running engine: it
    sleeps with at most the step index changed, or it has set
    [last_frequency] and written the command for it. *)
Lemma handle_controller_input_wake_running hat w :
  engine_running w ->
  (exists i, 0 <= i < 3
             /\ handle_controller_input_wake hat w
                = set_input (Suspended InputSleep) (set_step_index i (count_input w)))
  \/ (exists c f,
        primary (srv w) = Some c
        /\ handle_controller_input_wake hat w
           = set_input (Suspended InputDrain)
               (set_srv
                  (mk_server (running (srv w)) (Some f) (frequency_step (srv w))
                     (joystick (srv w))
                     (Some (mk_connection (written c ++ set_frequency_line f) (closes c))))
                  (count_input w))).
Proof.
  intros (Hr & Ho & _ & Hi). unfold open_unclosed in Ho.
  destruct (primary (srv w)) as [c|] eqn:Hc; [|contradiction].
  unfold step_index_in_range in Hi. cbn in Hi.
  assert (Hsleep : exists i, 0 <= i < 3
             /\ set_input (Suspended InputSleep) (count_input w)
                = set_input (Suspended InputSleep) (set_step_index i (count_input w))).
  { exists (step_index w). split; [exact Hi|]. now destruct w. }
  unfold handle_controller_input_wake. rewrite Hr.
  destruct (joystick (srv (count_input w))); [|left; exact Hsleep].
  unfold dispatch.
  destruct (fst hat =? -1).
  { right. exists c, (shift_base (count_input w) - active_step (count_input w)).
    split; [reflexivity|].
    rewrite (shift_frequency_effect Z.sub (count_input w) c Hc Hi).
    cbn [srv count_input]. now rewrite Hr. }
  destruct (fst hat =? 1).
  { right. exists c, (shift_base (count_input w) + active_step (count_input w)).
    split; [reflexivity|].
    rewrite (shift_frequency_effect Z.add (count_input w) c Hc Hi).
    cbn [srv count_input]. now rewrite Hr. }
  destruct (snd hat =? 1).
  { left. rewrite change_step_effect. eexists. split; [|reflexivity].
    apply Z.mod_pos_bound. lia. }
  destruct (snd hat =? -1).
  { left. rewrite change_step_effect. eexists. split; [|reflexivity].
    apply Z.mod_pos_bound. lia. }
  left. exact Hsleep.
Qed.

Lemma get_rig_data_response_raises response e :
  get_rig_data_response todecimal response = Raise e -> e = UnicodeDecodeError.
Proof.
  destruct (Py.decode response) as [text|e0] eqn:Hd.
  - rewrite (get_rig_data_response_text todecimal _ _ Hd).
    destruct (Py.int_of_str todecimal (spec_last_line text)); discriminate.
  - unfold get_rig_data_response. rewrite Hd. cbn [bind]. intros [= <-].
    unfold Py.decode in Hd.
    destruct (Py.utf8_decode_N (map Byte.to_N response)); congruence.
Qed.

(** One resumption keeps the engine running; a coroutine that fails in it
    fails with the exception that the event brought, or with
    [UnicodeDecodeError]. (The event pump, the hat readings and the prints
    are taken to succeed in these transitions.) *)
Lemma on_event_engine_running ev w :
  engine_running w -> both_suspended w ->
  engine_running (on_event todecimal ev w)
  /\ (both_suspended (on_event todecimal ev w)
      \/ exists e,
           gather_outcome (on_event todecimal ev w) = Some (Raise e)
           /\ (e = UnicodeDecodeError \/ raised_by ev e)).
Proof.
  intros Hrun [[spc Hs] [ipc Hi]].
  destruct ev as [| r | r | hat | r |]; cbn [on_event]; rewrite ?Hs, ?Hi.
  - (* WakeSync *)
    assert (Hwake : engine_running (sync_frequencies_wake w)
                    /\ both_suspended (sync_frequencies_wake w)).
    { destruct (sync_frequencies_wake_running w Hrun) as (c & Hc & ->).
      destruct Hrun as (Hr & Ho & Hp & Hx).
      unfold engine_running, open_unclosed, wire, step_index_in_range, both_suspended in *.
      cbn. rewrite Hc in *. cbn. rewrite ?Hi.
      repeat split; first [assumption | now apply protocol_read | solve [cbn in *; lia] | eauto]. }
    destruct spc; (split; [|left]); try apply Hwake; try exact Hrun;
      unfold both_suspended; rewrite Hs, Hi; eauto.
  - (* SyncDrained *)
    destruct spc; try (split; [exact Hrun|left; unfold both_suspended; rewrite Hs, Hi; eauto]).
    destruct r as [u|e]; cbn [sync_frequencies_drained].
    + split; [exact Hrun|left]. unfold both_suspended. cbn. rewrite Hi. eauto.
    + split; [exact Hrun|right]. exists e. split; [reflexivity|right; now left].
  - (* SyncReceived *)
    destruct spc; try (split; [exact Hrun|left; unfold both_suspended; rewrite Hs, Hi; eauto]).
    unfold sync_frequencies_received.
    destruct r as [response|e]; cbn [bind].
    + destruct (get_rig_data_response todecimal response) as [freq|e] eqn:Hd.
      * split.
        -- destruct Hrun as (Hr & Ho & Hp & Hx).
           destruct (truthy freq && negb (option_Z_eqb freq (last_frequency (srv w))));
             unfold engine_running, open_unclosed, wire, step_index_in_range in *;
             cbn; repeat split; first [assumption | solve [cbn in *; lia]].
        -- left. unfold both_suspended. cbn. rewrite Hi. eauto.
      * split; [exact Hrun|right]. exists e. split; [reflexivity|left].
        exact (get_rig_data_response_raises _ _ Hd).
    + split; [exact Hrun|right]. exists e. split; [reflexivity|right; right; now left].
  - (* WakeInput *)
    assert (Hwake : forall w0, engine_running w0 -> sync w0 = Suspended spc ->
              engine_running (handle_controller_input_wake hat w0)
              /\ both_suspended (handle_controller_input_wake hat w0)).
    { intros w0 Hrun0 Hs0.
      destruct (handle_controller_input_wake_running hat w0 Hrun0)
        as [(i & Hir & ->)|(c & f & Hc & ->)];
        destruct Hrun0 as (Hr & Ho & Hp & Hx);
        unfold engine_running, open_unclosed, wire, step_index_in_range, both_suspended in *;
        cbn; rewrite ?Hc in *; cbn; rewrite ?Hs0;
        repeat split; first [assumption | now apply protocol_set | solve [cbn in *; lia] | eauto]. }
    destruct ipc.
    + split; [|left]; apply Hwake; try exact Hs.
      all: destruct Hrun as (Hr & Ho & Hp & Hx); repeat split; try assumption;
        unfold step_index_in_range; cbn; lia.
    + split; [|left]; apply Hwake; assumption.
    + split; [exact Hrun|left]. unfold both_suspended. rewrite Hs, Hi. eauto.
  - (* InputDrained *)
    destruct ipc; try (split; [exact Hrun|left; unfold both_suspended; rewrite Hs, Hi; eauto]).
    destruct r as [u|e]; cbn [handle_controller_input_drained].
    + split; [exact Hrun|left]. unfold both_suspended. cbn. rewrite Hs. eauto.
    + split; [exact Hrun|right]. exists e. split; [unfold gather_outcome; cbn; now rewrite Hs|right; right; right; reflexivity].
  - split; [exact Hrun|left]. unfold both_suspended. rewrite Hs, Hi. eauto.
Qed.

(** The engine after a successful open: [start] has set [running]. *)
Lemma started_engine_running j :
  engine_running
    (boot (set_running true (set_primary (Some (mk_connection [] 0)) (init j))))
  /\ both_suspended
       (boot (set_running true (set_primary (Some (mk_connection [] 0)) (init j)))).
Proof.
  unfold engine_running, both_suspended, open_unclosed, step_index_in_range, wire.
  cbn. repeat split; eauto using protocol_empty; lia.
Qed.

(** A run of [gather] from a running engine: the invariant holds at its
    end, and it ends with the events used up or by an exception, which is
    the interrupt, [UnicodeDecodeError], or one that an event brought. *)
Lemma gather_engine_running evs w :
  engine_running w -> both_suspended w ->
  engine_running (snd (gather todecimal evs w))
  /\ ((fst (gather todecimal evs w) = None
       /\ both_suspended (snd (gather todecimal evs w)))
      \/ exists e,
           fst (gather todecimal evs w) = Some (Raise e)
           /\ (e = KeyboardInterrupt \/ e = UnicodeDecodeError
               \/ exists ev, In ev evs /\ raised_by ev e)).
Proof.
  revert w. induction evs as [|ev evs IH]; intros w Hrun Hboth.
  - assert (Hg : gather_outcome w = None).
    { destruct Hboth as [[spc Hs] [ipc Hi]]. unfold gather_outcome. now rewrite Hs, Hi. }
    cbn [gather]. rewrite Hg. cbn [fst snd]. split; [exact Hrun|left]. now split.
  - assert (Hg : gather_outcome w = None).
    { destruct Hboth as [[spc Hs] [ipc Hi]]. unfold gather_outcome. now rewrite Hs, Hi. }
    destruct (on_event_engine_running ev w Hrun Hboth) as [Hrun1 Hnext].
    assert (Hstep : ev <> Sigint ->
              gather todecimal (ev :: evs) w
              = gather todecimal evs (on_event todecimal ev w)).
    { intros Hne. cbn [gather]. rewrite Hg. destruct ev; congruence. }
    destruct ev as [| r | r | hat | r |];
      try (rewrite Hstep by discriminate;
           destruct Hnext as [Hboth1|(e & Hout & He)];
           [ destruct (IH _ Hrun1 Hboth1) as [Hr2 [Hnone|(e & Hf & He)]];
             (split; [exact Hr2|]);
             [ left; exact Hnone
             | right; exists e; split; [exact Hf|];
               destruct He as [He|[He|(ev' & Hin & He)]];
               [ now left | right; now left
               | right; right; exists ev'; split; [now right|exact He] ] ]
           | destruct evs as [|ev' evs']; cbn [gather]; rewrite Hout; cbn [fst snd];
             (split; [exact Hrun1|]); right; exists e; (split; [reflexivity|]);
             (destruct He as [He|He];
              [ right; now left
              | right; right; eexists; split; [left; reflexivity|exact He] ]) ]).
    cbn [gather]. rewrite Hg. cbn [fst snd]. split; [exact Hrun|right].
    exists KeyboardInterrupt. split; [reflexivity|now left].
Qed.

End EngineFacts.

(** ** Whole runs of the engine *)

Section RunFacts.

Variable todecimal : Py.char -> option N.

Local Open Scope Z_scope.

(** [stop] writes nothing. *)
Lemma stop_wire b w : wire (snd (stop b w)) = wire w.
Proof.
  unfold stop, close_connection, wire. cbn [srv set_srv set_running primary].
  destruct (primary (srv w)) eqn:E; destruct b; cbn; rewrite ?E; reflexivity.
Qed.

Lemma main_wire j opened evs :
  wire (snd (main todecimal j opened evs))
  = wire (snd (start todecimal opened evs (init j))).
Proof.
  unfold main. destruct (start todecimal opened evs (init j)) as [r w].
  cbn [snd]. destruct r as [[u|e]|]; try reflexivity.
  destruct e; try reflexivity.
  pose proof (stop_wire false w) as H. destruct (stop false w). exact H.
Qed.

(** X6. Whatever the radio answers, whatever the joystick does and whenever
    the run ends, the bytes that the program has written to the connection
    are a sequence of whole protocol lines, each ['f\n'] or ["F {f}\n"] for
    an integer [f]: nothing else is ever sent, and [stop] sends nothing. *)
Theorem wire_is_protocol_stream j opened evs :
  protocol_stream (wire (snd (start todecimal opened evs (init j))))
  /\ protocol_stream (wire (snd (main todecimal j opened evs))).
Proof.
  assert (H : protocol_stream (wire (snd (start todecimal opened evs (init j))))).
  { unfold start. destruct opened as [u|e]; cbn [open_connection bind].
    - destruct (started_engine_running j) as [Hrun Hboth].
      destruct (gather_engine_running todecimal evs _ Hrun Hboth) as [(_ & _ & Hp & _) _].
      exact Hp.
    - apply protocol_empty. }
  split; [exact H|]. now rewrite main_wire.
Qed.

(** X7. Once the connection is open, [start] never returns of itself:
    [running] stays set, both loops go on, and [start] ends by an exception
    only. *)
Theorem start_never_returns j evs :
  let out := start todecimal (Return tt) evs (init j) in
  running (srv (snd out)) = true
  /\ (fst out = None \/ exists e, fst out = Some (Raise e)).
Proof.
  cbn zeta. unfold start. cbn [open_connection bind].
  destruct (started_engine_running j) as [Hrun Hboth].
  destruct (gather_engine_running todecimal evs _ Hrun Hboth)
    as [(Hr & _) [[Hnone _]|(e & He & _)]].
  - split; [exact Hr|now left].
  - split; [exact Hr|right; eauto].
Qed.

(** X9. An interrupt that arrives while the connection is being opened
    makes the main block run [stop] on a server without streams: [stop]
    clears [running] and then fails with [AttributeError]; no loop has run
    and nothing was opened or closed. *)
Theorem interrupt_while_opening j evs :
  let out := main todecimal j (Raise KeyboardInterrupt) evs in
  fst out = Some (Raise AttributeError)
  /\ running (srv (snd out)) = false
  /\ primary (srv (snd out)) = None
  /\ sync_iterations (snd out) = 0%nat
  /\ input_iterations (snd out) = 0%nat.
Proof.
  cbn. repeat split.
Qed.


End RunFacts.

(** ** The cached frequency *)

Section FrequencyFacts.

Variable todecimal : Py.char -> option N.

Local Open Scope Z_scope.

Lemma send_last_frequency command s s' :
  send command s = Return s' -> last_frequency s' = last_frequency s.
Proof.
  unfold send, writer_write.
  destruct (Py.encode command); cbn [bind]; [|discriminate].
  destruct (primary s); [|discriminate]. now intros [= <-].
Qed.

Lemma truthy_some freq : truthy freq = true -> exists f, freq = Some f /\ f <> 0.
Proof.
  destruct freq as [f|]; cbn; [|discriminate].
  destruct (Z.eqb_spec f 0); [discriminate|]. eauto.
Qed.

Lemma shift_frequency_known op w : known (srv (shift_frequency op w)).
Proof.
  unfold shift_frequency, known.
  destruct (getitem frequency_steps (step_index w)) as [step|e].
  - match goal with
    | |- context [send ?c ?s] => destruct (send c s) eqn:Hs
    end.
    + cbn [srv set_input set_srv]. rewrite (send_last_frequency _ _ _ Hs).
      cbn. eauto.
    + cbn. eauto.
  - cbn [srv set_input set_srv].
    destruct (last_frequency (srv w)) eqn:E; cbn; rewrite ?E; eauto.
Qed.

Lemma on_event_known ev w :
  known (srv w) -> known (srv (on_event todecimal ev w)).
Proof.
  intros H. destruct ev as [| r | r | hat | r |]; cbn [on_event].
  - destruct (sync w) as [[]| |]; try exact H.
    all: unfold sync_frequencies_wake; destruct (running (srv w)); [|exact H];
      destruct (send read_frequency_command (srv (count_sync w))) eqn:Hs;
      [|exact H]; unfold known; cbn [srv set_sync set_srv];
      rewrite (send_last_frequency _ _ _ Hs); exact H.
  - destruct (sync w) as [[]| |]; try exact H. destruct r; exact H.
  - destruct (sync w) as [[]| |]; try exact H.
    unfold sync_frequencies_received.
    destruct (response <- r;; get_rig_data_response todecimal response) as [freq|e];
      [|exact H].
    cbn [srv set_sync set_srv].
    destruct (truthy freq && negb (option_Z_eqb freq (last_frequency (srv w)))) eqn:E;
      [|exact H].
    apply andb_prop in E as [E _]. destruct (truthy_some _ E) as (f & -> & _).
    unfold known. cbn. eauto.
  - assert (Hw : forall w0, known (srv w0) ->
                   known (srv (handle_controller_input_wake hat w0))).
    { intros w0 H0. unfold handle_controller_input_wake.
      destruct (running (srv w0)); [|exact H0].
      destruct (joystick (srv (count_input w0))); [|exact H0].
      unfold dispatch.
      repeat match goal with
             | |- context [if ?b then _ else _] => destruct b
             end;
        rewrite ?change_step_effect;
        try (apply shift_frequency_known); exact H0. }
    destruct (input w) as [[]| |]; try exact H; apply Hw; exact H.
  - destruct (input w) as [[]| |]; try exact H. destruct r; exact H.
  - exact H.
Qed.

(** X11. Once the program knows a frequency it never forgets it: no event
    of a run sets [last_frequency] back to [None]. *)
Theorem last_frequency_never_forgotten evs w f :
  last_frequency (srv w) = Some f ->
  exists f', last_frequency (srv (snd (gather todecimal evs w))) = Some f'.
Proof.
  intros H. assert (Hk : known (srv w)) by (unfold known; eauto). clear H.
  revert w Hk. induction evs as [|ev evs IH]; intros w Hk; cbn [gather].
  - destruct (gather_outcome w); exact Hk.
  - destruct (gather_outcome w); [exact Hk|].
    destruct ev; try (apply IH; now apply on_event_known); exact Hk.
Qed.

(** X12. The sync loop stores nothing but a decoded integer other than 0:
    after the response handling, [last_frequency] is what it was, or it is
    the value decoded from this response, which is not 0. A response that
    fails to decode, in either way, changes nothing. *)
Theorem sync_frequencies_stores_decoded_nonzero_only r w :
  let w' := sync_frequencies_received todecimal r w in
  last_frequency (srv w') = last_frequency (srv w)
  \/ exists response f,
       r = Return response
       /\ get_rig_data_response todecimal response = Return (Some f)
       /\ f <> 0
       /\ last_frequency (srv w') = Some f.
Proof.
  cbn zeta. unfold sync_frequencies_received.
  destruct r as [response|e]; cbn [bind]; [|now left].
  destruct (get_rig_data_response todecimal response) as [freq|e] eqn:Hd; [|now left].
  cbn [srv set_sync set_srv].
  destruct (truthy freq && negb (option_Z_eqb freq (last_frequency (srv w)))) eqn:E;
    [|now left].
  apply andb_prop in E as [E _]. destruct (truthy_some _ E) as (f & -> & Hf).
  right. exists response, f. repeat split; assumption.
Qed.

Lemma option_Z_eqb_refl a : option_Z_eqb a a = true.
Proof. destruct a; cbn; [apply Z.eqb_refl|reflexivity]. Qed.

(** X13. Polling is idempotent: when the same response arrives in two
    successive cycles of the sync loop, the second one leaves
    [last_frequency] as the first one left it. *)
Theorem sync_frequencies_same_response_twice r w :
  let w1 := sync_frequencies_received todecimal r w in
  let w2 := sync_frequencies_received todecimal r w1 in
  last_frequency (srv w2) = last_frequency (srv w1).
Proof.
  cbn zeta. unfold sync_frequencies_received.
  destruct (response <- r;; get_rig_data_response todecimal response) as [freq|e];
    [|reflexivity].
  cbn [srv set_sync set_srv].
  destruct (truthy freq && negb (option_Z_eqb freq (last_frequency (srv w)))) eqn:E.
  - cbn [last_frequency set_last_frequency]. rewrite option_Z_eqb_refl.
    rewrite andb_false_r. reflexivity.
  - rewrite E. reflexivity.
Qed.

End FrequencyFacts.

Lemma last_frequency_never_forgotten_witness :
  exists f',
    last_frequency
      (srv (snd (gather Py.ascii_todecimal
                   [WakeSync; SyncDrained (Return tt);
                    SyncReceived (Return (ascii_bytes "garbage")); WakeInput (0%Z, 1%Z)]
                   (live (Some 145000000%Z) 1000%Z [] 0 SyncSleep InputSleep 0%Z 0 0))))
    = Some f'.
Proof.
  exact (last_frequency_never_forgotten Py.ascii_todecimal _
           (live (Some 145000000%Z) 1000%Z [] 0 SyncSleep InputSleep 0%Z 0 0)
           145000000%Z eq_refl).
Defined.

(** ** Sequences of presses *)

Section PressFacts.

Local Open Scope Z_scope.

(** A cycle that dispatches left ([op] is [Z.sub], [x = -1]) or right
    ([op] is [Z.add], [x = 1]). *)
Lemma left_right_cycle op x y w c :
  (x = -1 /\ op = Z.sub) \/ (x = 1 /\ op = Z.add) ->
  running (srv w) = true ->
  joystick (srv w) = true ->
  primary (srv w) = Some c ->
  0 <= step_index w < 3 ->
  handle_controller_input_wake (x, y) w
  = set_input (Suspended InputDrain)
      (set_srv
         (mk_server true (Some (op (shift_base w) (active_step w)))
            (frequency_step (srv w)) true
            (Some (mk_connection
                     (written c ++ set_frequency_line (op (shift_base w) (active_step w)))
                     (closes c))))
         (count_input w)).
Proof.
  intros Hx Hr Hj Hc Hi.
  unfold handle_controller_input_wake. rewrite Hr.
  replace (joystick (srv (count_input w))) with true by (symmetry; exact Hj).
  cbn [fst snd]. unfold dispatch.
  destruct Hx as [[-> ->]|[-> ->]].
  - change (-1 =? -1) with true. cbv iota.
    rewrite (shift_frequency_effect Z.sub (count_input w) c Hc Hi).
    cbn [srv count_input]. now rewrite Hr, Hj.
  - change (1 =? -1) with false. change (1 =? 1) with true. cbv iota.
    rewrite (shift_frequency_effect Z.add (count_input w) c Hc Hi).
    cbn [srv count_input]. now rewrite Hr, Hj.
Qed.

(** X14. A left press followed by a right press at the same step size
    brings the frequency back: [last_frequency] is the base of the first
    shift again (1000000 when there was none), the step index is untouched,
    and the two commands sent are the one for the lower frequency and then
    the one for the base. *)
Theorem left_then_right_restores w c y y' :
  running (srv w) = true ->
  joystick (srv w) = true ->
  primary (srv w) = Some c ->
  0 <= step_index w < 3 ->
  let w1 := handle_controller_input_wake (-1, y) w in
  let w2 := handle_controller_input_drained (Return tt) w1 in
  let w3 := handle_controller_input_wake (1, y') w2 in
  last_frequency (srv w3) = Some (shift_base w)
  /\ step_index w3 = step_index w
  /\ wire w3 = written c
               ++ set_frequency_line (shift_base w - active_step w)
               ++ set_frequency_line (shift_base w).
Proof.
  intros Hr Hj Hc Hi w1 w2 w3. subst w3 w2 w1.
  rewrite (left_right_cycle Z.sub (-1) y w c (or_introl (conj eq_refl eq_refl)) Hr Hj Hc Hi).
  cbn [handle_controller_input_drained].
  match goal with
  | |- context [handle_controller_input_wake (1, y') ?w2] =>
      rewrite (left_right_cycle Z.add 1 y' w2
                 (mk_connection
                    (written c ++ set_frequency_line (shift_base w - active_step w))
                    (closes c))
                 (or_intror (conj eq_refl eq_refl)) eq_refl eq_refl eq_refl Hi)
  end.
  repeat match goal with
         | |- context [shift_base (set_input ?a ?b)] =>
             change (shift_base (set_input a b)) with (shift_base w - active_step w)
         | |- context [active_step (set_input ?a ?b)] =>
             change (active_step (set_input a b)) with (active_step w)
         end.
  cbn [srv last_frequency step_index set_input set_srv count_input wire primary written].
  replace (shift_base w - active_step w + active_step w) with (shift_base w) by lia.
  repeat split. now rewrite <- app_assoc.
Qed.

(** X15. The step index moves on a cycle of length three: up followed by
    down (and down followed by up) brings it back, and so do three ups. *)
Theorem step_index_cycle_of_three w x :
  running (srv w) = true ->
  joystick (srv w) = true ->
  x <> -1 -> x <> 1 ->
  0 <= step_index w < 3 ->
  let up := handle_controller_input_wake (x, 1) in
  let down := handle_controller_input_wake (x, -1) in
  step_index (down (up w)) = step_index w
  /\ step_index (up (down w)) = step_index w
  /\ step_index (up (up (up w))) = step_index w
  /\ srv (up (up (up w))) = srv w.
Proof.
  intros Hr Hj Hl Hrt Hi up down. subst up down.
  assert (Hup : forall w0, running (srv w0) = true -> joystick (srv w0) = true ->
            handle_controller_input_wake (x, 1) w0
            = set_input (Suspended InputSleep)
                (set_step_index ((step_index w0 + 1) mod 3) (count_input w0))).
  { intros w0 H1 H2. apply up_down_cycle; auto. }
  assert (Hdown : forall w0, running (srv w0) = true -> joystick (srv w0) = true ->
            handle_controller_input_wake (x, -1) w0
            = set_input (Suspended InputSleep)
                (set_step_index ((step_index w0 + -1) mod 3) (count_input w0))).
  { intros w0 H1 H2. apply up_down_cycle; auto. }
  assert (Hi' : step_index w = 0 \/ step_index w = 1 \/ step_index w = 2) by lia.
  repeat split.
  - rewrite (Hup w Hr Hj). set (w1 := set_input _ _).
    rewrite (Hdown w1 Hr Hj). subst w1.
    cbn [step_index set_input set_step_index count_input].
    destruct Hi' as [->|[->| ->]]; reflexivity.
  - rewrite (Hdown w Hr Hj). set (w1 := set_input _ _).
    rewrite (Hup w1 Hr Hj). subst w1.
    cbn [step_index set_input set_step_index count_input].
    destruct Hi' as [->|[->| ->]]; reflexivity.
  - rewrite (Hup w Hr Hj). set (w1 := set_input _ _).
    rewrite (Hup w1 Hr Hj). set (w2 := set_input _ _).
    rewrite (Hup w2 Hr Hj). subst w2 w1.
    cbn [step_index set_input set_step_index count_input].
    destruct Hi' as [->|[->| ->]]; reflexivity.
  - rewrite (Hup w Hr Hj). set (w1 := set_input _ _).
    rewrite (Hup w1 Hr Hj). set (w2 := set_input _ _).
    rewrite (Hup w2 Hr Hj). reflexivity.
Qed.

End PressFacts.

(** ** Running without a joystick *)

Section NoJoystickFacts.

Variable todecimal : Py.char -> option N.

Local Open Scope Z_scope.

Lemma concat_repeat_snoc {A : Type} (l : list A) n :
  List.concat (repeat l n) ++ l = List.concat (repeat l (S n)).
Proof.
  induction n as [|n IH]; cbn [repeat List.concat].
  - now rewrite app_nil_r.
  - rewrite <- app_assoc, IH. reflexivity.
Qed.

Lemma on_event_polling_only ev w :
  polling_only w -> polling_only (on_event todecimal ev w).
Proof.
  intros H. pose proof H as (Hj & Hr & Hx & (c & Hc) & Hw).
  destruct ev as [| r | r | hat | r |]; cbn [on_event].
  - assert (Hwake : polling_only (sync_frequencies_wake w)).
    { unfold sync_frequencies_wake. rewrite Hr.
      rewrite (send_effect _ _ _ read_frequency_command_encodes).
      cbn [count_sync srv]. rewrite Hc.
      unfold polling_only, wire in *. rewrite Hc in Hw. cbn.
      repeat split; try assumption; eauto.
      rewrite Hw. apply (concat_repeat_snoc read_frequency_line). }
    destruct (sync w) as [[]| |]; try exact H; exact Hwake.
  - destruct (sync w) as [[]| |]; try exact H. destruct r; exact H.
  - destruct (sync w) as [[]| |]; try exact H.
    unfold sync_frequencies_received.
    destruct (response <- r;; get_rig_data_response todecimal response) as [freq|e];
      [|exact H].
    destruct (truthy freq && negb (option_Z_eqb freq (last_frequency (srv w))));
      unfold polling_only, wire in *; cbn; repeat split; try assumption; eauto.
  - assert (Hwake : forall w0, polling_only w0 ->
              polling_only (handle_controller_input_wake hat w0)).
    { intros w0 (Hj0 & Hr0 & Hx0 & Hc0 & Hw0).
      unfold handle_controller_input_wake. rewrite Hr0.
      replace (joystick (srv (count_input w0))) with false by (symmetry; exact Hj0).
      unfold polling_only, wire in *. cbn. repeat split; assumption. }
    destruct (input w) as [[]| |]; try exact H; apply Hwake; [|exact H].
    unfold polling_only, wire in *. cbn. repeat split; try assumption; eauto.
  - destruct (input w) as [[]| |]; try exact H. destruct r; exact H.
  - exact H.
Qed.

Lemma gather_polling_only evs w :
  polling_only w -> polling_only (snd (gather todecimal evs w)).
Proof.
  revert w. induction evs as [|ev evs IH]; intros w H; cbn [gather].
  - destruct (gather_outcome w); exact H.
  - destruct (gather_outcome w); [exact H|].
    destruct ev; try (apply IH; now apply on_event_polling_only); exact H.
Qed.

(** X16. Without a joystick the input loop is inert for the whole run:
    the step index stays 0 and the only bytes ever written are the read
    requests ['f\n'] of the sync loop, one for each of its cycles; no
    set-frequency command is sent. *)
Theorem no_joystick_only_polls evs :
  let w := snd (start todecimal (Return tt) evs (init false)) in
  step_index w = 0
  /\ wire w = List.concat (repeat read_frequency_line (sync_iterations w)).
Proof.
  cbn zeta. unfold start. cbn [open_connection bind].
  assert (H0 : polling_only
                 (boot (set_running true
                          (set_primary (Some (mk_connection [] 0)) (init false))))).
  { unfold polling_only, wire. cbn. repeat split; eauto. }
  destruct (gather_polling_only evs _ H0) as (_ & _ & Hx & _ & Hw).
  split; assumption.
Qed.

End NoJoystickFacts.

Section MoreExamples.

Local Open Scope Z_scope.

Lemma left_then_right_restores_witness :
  let w := live (Some 145000000) 1000 [] 0 SyncSleep InputSleep 1 0 0 in
  let w1 := handle_controller_input_wake (-1, 0) w in
  let w2 := handle_controller_input_drained (Return tt) w1 in
  let w3 := handle_controller_input_wake (1, 0) w2 in
  last_frequency (srv w3) = Some 145000000
  /\ wire w3 = ascii_bytes "F 144987500" ++ [x0a] ++ ascii_bytes "F 145000000" ++ [x0a].
Proof.
  intros w w1 w2 w3.
  destruct (left_then_right_restores w (mk_connection [] 0) 0 0
              eq_refl eq_refl eq_refl ltac:(cbn; lia)) as (H1 & _ & H2).
  split; [exact H1|exact H2].
Defined.

Lemma step_index_cycle_of_three_witness :
  let w := live None 1000 [] 0 SyncSleep InputSleep 2 0 0 in
  step_index (handle_controller_input_wake (0, -1)
                (handle_controller_input_wake (0, 1) w)) = 2
  /\ step_index (handle_controller_input_wake (0, 1)
                   (handle_controller_input_wake (0, 1)
                      (handle_controller_input_wake (0, 1) w))) = 2.
Proof.
  intros w.
  destruct (step_index_cycle_of_three w 0 eq_refl eq_refl
              ltac:(lia) ltac:(lia) ltac:(cbn; lia)) as (H1 & _ & H2 & _).
  split; [exact H1|exact H2].
Defined.

End MoreExamples.

(** ** The coroutines and the functions they call *)

Section SequentialFacts.

Variable todecimal : Py.char -> option N.

Local Open Scope Z_scope.

(** X17. A cycle of [sync_frequencies] that nothing interrupts is
    [read_frequency] followed by the guarded update: when [read_frequency]
    returns, the update of lines 111 to 113 is applied to the server it
    leaves and the loop sleeps; when it raises, in the write, the drain, the
    read or the decoding, the loop ends with that exception and the server
    is as [read_frequency] left it. *)
Theorem sync_cycle_is_read_frequency w drained received :
  running (srv w) = true ->
  sync w = Suspended SyncSleep ->
  let w' := on_event todecimal (SyncReceived received)
              (on_event todecimal (SyncDrained drained)
                 (on_event todecimal WakeSync w)) in
  match read_frequency todecimal drained received (srv w) with
  | (Return freq, s) =>
      sync w' = Suspended SyncSleep
      /\ srv w' = (if truthy freq && negb (option_Z_eqb freq (last_frequency s))
                   then set_last_frequency freq s else s)
  | (Raise e, s) => sync w' = Failed e /\ srv w' = s
  end.
Proof.
  intros Hr Hs. cbn zeta. unfold read_frequency, get_rig_data.
  cbn [on_event]. rewrite Hs. unfold sync_frequencies_wake. rewrite Hr.
  cbn [count_sync srv].
  destruct (send read_frequency_command (srv w)) as [s1|e]; [|now split].
  cbn [on_event sync set_sync set_srv].
  destruct drained as [u|e]; cbn [sync_frequencies_drained]; [|now split].
  cbn [on_event sync set_sync set_srv].
  unfold sync_frequencies_received.
  destruct received as [response|e]; cbn [bind]; [|now split].
  destruct (get_rig_data_response todecimal response) as [freq|e]; [|now split].
  now split.
Qed.

(** X18. A left or right dispatch that nothing interrupts is the update
    of [last_frequency] followed by [set_frequency] of the new value: the
    server after the drain is the one [set_frequency] leaves, and the loop
    sleeps when [set_frequency] returns and ends with its exception when it
    raises. *)
Theorem dispatch_is_set_frequency w x y drained :
  running (srv w) = true ->
  joystick (srv w) = true ->
  input w = Suspended InputSleep ->
  0 <= step_index w < 3 ->
  x = -1 \/ x = 1 ->
  let f := shift_base w + x * active_step w in
  let w' := on_event todecimal (InputDrained drained)
              (on_event todecimal (WakeInput (x, y)) w) in
  match set_frequency f drained (set_last_frequency (Some f) (srv w)) with
  | (Return _, s) => input w' = Suspended InputSleep /\ srv w' = s
  | (Raise e, s) => input w' = Failed e /\ srv w' = s
  end.
Proof.
  intros Hr Hj Hin Hi Hx. cbn zeta. unfold set_frequency.
  cbn [on_event]. rewrite Hin.
  unfold handle_controller_input_wake. rewrite Hr.
  replace (joystick (srv (count_input w))) with true by (symmetry; exact Hj).
  cbn [fst snd]. unfold dispatch, shift_frequency.
  cbn [count_input srv step_index].
  rewrite (getitem_frequency_steps _ Hi). fold (active_step w).
  assert (Hbase : match last_frequency
                          match last_frequency (srv w) with
                          | Some _ => srv w
                          | None => set_last_frequency (Some 1000000) (srv w)
                          end
                  with Some f => f | None => 1000000 end = shift_base w).
  { unfold shift_base.
    destruct (last_frequency (srv w)) eqn:E; cbn; rewrite ?E; reflexivity. }
  assert (Hsrv : forall f,
             set_last_frequency (Some f)
               match last_frequency (srv w) with
               | Some _ => srv w
               | None => set_last_frequency (Some 1000000) (srv w)
               end
             = set_last_frequency (Some f) (srv w)).
  { intros f. destruct (last_frequency (srv w)) eqn:E; reflexivity. }
  destruct Hx as [-> | ->].
  - change (-1 =? -1) with true. cbv iota. rewrite Hbase, Hsrv.
    replace (shift_base w + -1 * active_step w) with (shift_base w - active_step w) by lia.
    destruct (send _ _) as [s1|e]; cbn [on_event input set_input set_srv];
      [|now split].
    destruct drained as [u|e]; cbn [handle_controller_input_drained]; now split.
  - change (1 =? -1) with false. change (1 =? 1) with true. cbv iota.
    rewrite Hbase, Hsrv.
    replace (shift_base w + 1 * active_step w) with (shift_base w + active_step w) by lia.
    destruct (send _ _) as [s1|e]; cbn [on_event input set_input set_srv];
      [|now split].
    destruct drained as [u|e]; cbn [handle_controller_input_drained]; now split.
Qed.

End SequentialFacts.

(** ** Presses in a row, and the end of the loops *)

Section LoopFacts.

Variable todecimal : Py.char -> option N.

Local Open Scope Z_scope.

Lemma left_press_live evs lf fs wr cl s idx n m :
  0 <= idx < 3 ->
  let f := match lf with Some f => f | None => 1000000 end
           - nth (Z.to_nat idx) frequency_steps 0 in
  gather todecimal (WakeInput (-1, 0) :: InputDrained (Return tt) :: evs)
    (live lf fs wr cl s InputSleep idx n m)
  = gather todecimal evs
      (live (Some f) fs (wr ++ set_frequency_line f) cl s InputSleep idx n (S m)).
Proof.
  intros Hi f. subst f.
  rewrite gather_live by discriminate.
  rewrite (live_wake_input_left todecimal _ _ _ _ _ _ _ _ _ Hi).
  rewrite gather_live by discriminate.
  now rewrite live_input_drained.
Qed.

Lemma left_presses_known n f fs wr cl s idx k m :
  0 <= idx < 3 ->
  exists wr',
    gather todecimal (left_presses n) (live (Some f) fs wr cl s InputSleep idx k m)
    = (None,
       live (Some (f - Z.of_nat n * nth (Z.to_nat idx) frequency_steps 0))
         fs wr' cl s InputSleep idx k (m + n)).
Proof.
  intros Hi. revert f wr m. induction n as [|n IH]; intros f wr m.
  - exists wr. unfold left_presses. cbn [repeat List.concat].
    rewrite gather_live_end. rewrite Nat.add_0_r.
    change (Z.of_nat 0) with 0. rewrite Z.mul_0_l, Z.sub_0_r. reflexivity.
  - unfold left_presses. cbn [repeat List.concat app].
    rewrite (left_press_live _ _ _ _ _ _ _ _ _ Hi).
    fold (left_presses n).
    destruct (IH (f - nth (Z.to_nat idx) frequency_steps 0)
                 (wr ++ set_frequency_line (f - nth (Z.to_nat idx) frequency_steps 0))
                 (S m)) as (wr' & ->).
    exists wr'. rewrite Nat2Z.inj_succ, Nat.add_succ_r.
    replace (f - nth (Z.to_nat idx) frequency_steps 0
             - Z.of_nat n * nth (Z.to_nat idx) frequency_steps 0)
      with (f - Z.succ (Z.of_nat n) * nth (Z.to_nat idx) frequency_steps 0)
      by ring.
    reflexivity.
Qed.

(** X19. Left presses add up: after [n + 1] left presses in a row at one
    step size, with no answer of the radio in between, [last_frequency] is
    the base minus [n + 1] times the step, the base being the frequency
    before the first press or 1000000 when there was none; the step index is
    as before and the loop has run [n + 1] times. *)
Theorem left_presses_add_up n lf fs wr cl s idx k m :
  0 <= idx < 3 ->
  exists wr',
    gather todecimal (left_presses (S n)) (live lf fs wr cl s InputSleep idx k m)
    = (None,
       live (Some (match lf with Some f => f | None => 1000000 end
                   - Z.of_nat (S n) * nth (Z.to_nat idx) frequency_steps 0))
         fs wr' cl s InputSleep idx k (m + S n)).
Proof.
  intros Hi. unfold left_presses. cbn [repeat List.concat app].
  rewrite (left_press_live _ _ _ _ _ _ _ _ _ Hi). fold (left_presses n).
  match goal with
  | |- context [live (Some ?f0) fs ?wr0 cl s InputSleep idx k (S m)] =>
      destruct (left_presses_known n f0 fs wr0 cl s idx k (S m) Hi) as (wr' & ->)
  end.
  exists wr'. rewrite Nat2Z.inj_succ, Nat.add_succ_r.
  match goal with
  | |- context [?b - ?st - Z.of_nat n * ?st] =>
      replace (b - st - Z.of_nat n * st) with (b - Z.succ (Z.of_nat n) * st) by ring
  end.
  reflexivity.
Qed.

(** X20. The loops are cancelled by the flag alone: when [running] is
    false, each loop ends at its next wake-up without writing to the
    connection or touching the server, and [gather], hence [start], returns
    once both have woken. *)
Theorem loops_end_when_not_running w hat :
  running (srv w) = false ->
  sync w = Suspended SyncSleep ->
  input w = Suspended InputSleep ->
  let out := gather todecimal [WakeSync; WakeInput hat] w in
  fst out = Some (Return tt)
  /\ srv (snd out) = srv w
  /\ step_index (snd out) = step_index w
  /\ sync_iterations (snd out) = sync_iterations w
  /\ input_iterations (snd out) = input_iterations w.
Proof.
  intros Hr Hs Hi. cbn zeta.
  destruct w as [[r lf fs j p] sy inp idx n m]. cbn in Hr, Hs, Hi. subst r sy inp.
  cbn. repeat split.
Qed.

End LoopFacts.

Section LoopExamples.

Local Open Scope Z_scope.

Lemma sync_cycle_is_read_frequency_witness :
  let w := live None 1000 [] 0 SyncSleep InputSleep 0 0 0 in
  let w' := on_event Py.ascii_todecimal
              (SyncReceived (Return (ascii_bytes "145000000" ++ [x0a])))
              (on_event Py.ascii_todecimal (SyncDrained (Return tt))
                 (on_event Py.ascii_todecimal WakeSync w)) in
  sync w' = Suspended SyncSleep
  /\ srv w' = mk_server true (Some 145000000) 1000 true
                (Some (mk_connection (ascii_bytes "f" ++ [x0a]) 0)).
Proof.
  exact (sync_cycle_is_read_frequency Py.ascii_todecimal
           (live None 1000 [] 0 SyncSleep InputSleep 0 0 0) (Return tt)
           (Return (ascii_bytes "145000000" ++ [x0a])) eq_refl eq_refl).
Defined.

Lemma dispatch_is_set_frequency_witness :
  let w := live None 1000 [] 0 SyncSleep InputSleep 0 0 0 in
  let w' := on_event Py.ascii_todecimal (InputDrained (Raise OSError))
              (on_event Py.ascii_todecimal (WakeInput (-1, 0)) w) in
  input w' = Failed OSError
  /\ srv w' = mk_server true (Some 999000) 1000 true
                (Some (mk_connection (ascii_bytes "F 999000" ++ [x0a]) 0)).
Proof.
  exact (dispatch_is_set_frequency Py.ascii_todecimal
           (live None 1000 [] 0 SyncSleep InputSleep 0 0 0) (-1) 0 (Raise OSError)
           eq_refl eq_refl eq_refl ltac:(cbn; lia) (or_introl eq_refl)).
Defined.

Lemma left_presses_add_up_witness :
  exists wr',
    gather Py.ascii_todecimal (left_presses 3)
      (live None 1000 [] 0 SyncSleep InputSleep 1 0 0)
    = (None, live (Some 962500) 1000 wr' 0 SyncSleep InputSleep 1 0 3).
Proof.
  exact (left_presses_add_up Py.ascii_todecimal 2 None 1000 [] 0 SyncSleep 1 0 0
           ltac:(lia)).
Defined.

Lemma loops_end_when_not_running_witness :
  let w := mk_world (mk_server false (Some 145000000) 1000 true
                       (Some (mk_connection [] 0)))
             (Suspended SyncSleep) (Suspended InputSleep) 1 4 4 in
  fst (gather Py.ascii_todecimal [WakeSync; WakeInput (-1, 0)] w) = Some (Return tt)
  /\ srv (snd (gather Py.ascii_todecimal [WakeSync; WakeInput (-1, 0)] w)) = srv w.
Proof.
  intros w.
  destruct (loops_end_when_not_running Py.ascii_todecimal w (-1, 0)
              eq_refl eq_refl eq_refl) as (H1 & H2 & _).
  split; [exact H1|exact H2].
Defined.

End LoopExamples.
